(** * Verification of the SorceryWebApp core (src/api/index.py)

    Shallow embedding of the three core pieces of [api/index.py]:
    - the Curiosa decklist resolver ([extract_deck_id],
      [resolve_decklist_from_url]);
    - the enrichment engine ([enrich_and_match_data]);
    - the PDF layout engine ([create_pdf_from_cards]).

    Conventions of the embedding:
    - Python [int] is [Z]; Python [str] is Rocq [string] (ASCII);
    - a Python [dict] keyed by card name is a [gmap string _];
    - JSON values coming from the network are the inductive [json], and
      Python's exceptions are the inductive [exn]. *)

From Stdlib Require Import ZArith QArith Ascii String.
From stdpp Require Import base gmap strings list.

Open Scope Z_scope.
#[local] Set Warnings "-register-all".

(* ================================================================= *)
(** ** Catalog and enrichment engine *)

(** A catalog entry, as written by [data_setup.py] into
    [master_cards.json] and loaded by [load_card_db]. Every entry is a
    non-empty JSON object, hence truthy in [if master_data:]. Only the
    fields read by [index.py] are kept; a missing key is [None]. *)
Record CatalogEntry := mkCatalogEntry {
  ce_image_url : option string;
  ce_rarity : option string;
  ce_price_usd : option Q;
  ce_mana_cost : option Z;
  ce_image_file : option string
}.

(** [CARD_DB] / [card_db]: card name -> metadata. *)
Abbreviation Catalog := (gmap string CatalogEntry).

(** A row of the parsed collection export ([parse_curiosa_export]). *)
Record OwnedRecord := mkOwned {
  o_name : string;
  o_quantity : Z;
  o_set : option string;
  o_finish : option string
}.

(** A decklist entry [{'name': ..., 'quantity': ...}]. *)
Record DeckRequirement := mkReq {
  dr_name : string;
  dr_quantity : Z
}.

Inductive Status := Complete | Proxy_Needed | Missing | Error_NotFound.

Record EnrichedMeta := mkMeta {
  em_image_url : option string;
  em_rarity : option string;
  em_price_usd : option Q;
  em_mana_cost : option Z;
  em_slug : string
}.

(** The enriched dict; [ec_meta] is the part added by
    [enriched_card.update(...)] when [master_data] is truthy. *)
Record EnrichedCard := mkEnriched {
  ec_name : string;
  ec_required_quantity : Z;
  ec_owned_quantity : Z;
  ec_net_needed_quantity : Z;
  ec_status : Status;
  ec_meta : option EnrichedMeta
}.

(** [s.replace('.png', '')]: every non-overlapping occurrence, left to
    right. *)
Fixpoint remove_png (l : list ascii) : list ascii :=
  match l with
  | "."%char :: "p"%char :: "n"%char :: "g"%char :: t => remove_png t
  | c :: t => c :: remove_png t
  | [] => []
  end.

Definition replace_png (s : string) : string :=
  string_of_list_ascii (remove_png (list_ascii_of_string s)).

(** [{card['name']: card['quantity'] for card in owned_collection}]:
    inserted left to right, so a later record overwrites an earlier one. *)
Definition owned_quantities (owned_collection : list OwnedRecord)
    : gmap string Z :=
  fold_left (fun m card => <[o_name card := o_quantity card]> m)
            owned_collection ∅.

(** The body of the loop of [enrich_and_match_data] for one [deck_card]. *)
Definition enrich_card (owned_q : gmap string Z) (card_db : Catalog)
    (deck_card : DeckRequirement) : EnrichedCard :=
  let card_name := dr_name deck_card in
  let required_quantity := dr_quantity deck_card in
  let master_data := card_db !! card_name in
  let owned_quantity := default 0 (owned_q !! card_name) in
  let net_needed := required_quantity - owned_quantity in
  let final_status :=
    match master_data with
    | Some _ =>
        if net_needed <=? 0 then Complete
        else if 0 <? owned_quantity then Proxy_Needed
        else Missing
    | None => Error_NotFound
    end in
  mkEnriched card_name required_quantity owned_quantity
    (Z.max 0 net_needed) final_status
    (match master_data with
     | Some m =>
         Some (mkMeta (ce_image_url m) (ce_rarity m) (ce_price_usd m)
                 (ce_mana_cost m)
                 (replace_png (default "" (ce_image_file m))))
     | None => None
     end).

(** [enrich_and_match_data]: the loop appends one enriched card per
    decklist entry, in order. *)
Definition enrich_and_match_data (decklist : list DeckRequirement)
    (owned_collection : list OwnedRecord) (card_db : Catalog)
    : list EnrichedCard :=
  let owned_q := owned_quantities owned_collection in
  map (enrich_card owned_q card_db) decklist.

(* ================================================================= *)
(** ** Python values and exceptions *)

(** A JSON document as decoded by [response.json()]. Numbers are
    modelled as integers (the fields read here are counts). An object
    keeps its key/value pairs in source order. *)
Inductive json :=
  | JNull
  | JBool (b : bool)
  | JInt (z : Z)
  | JStr (s : string)
  | JList (l : list json)
  | JObj (kvs : list (string * json)).

(** The Python exceptions that the modelled code can raise. *)
Inductive exn := KeyError | IndexError | TypeError | AttributeError.

(** A computation that returns a value or raises. *)
Inductive py (A : Type) := Ok (a : A) | Raise (e : exn).
Arguments Ok {A} a.
Arguments Raise {A} e.

Definition py_bind {A B} (m : py A) (k : A -> py B) : py B :=
  match m with Ok a => k a | Raise e => Raise e end.

Notation "x <- m ;; k" := (py_bind m (fun x => k))
  (at level 100, m at next level, right associativity).

(** [json.loads] keeps the last value of a duplicated key. *)
Fixpoint obj_lookup (k : string) (kvs : list (string * json)) : option json :=
  match kvs with
  | [] => None
  | (k', v) :: t =>
      match obj_lookup k t with
      | Some x => Some x
      | None => if String.eqb k k' then Some v else None
      end
  end.

(** Python truthiness ([bool(v)]). *)
Definition py_truthy (v : json) : bool :=
  match v with
  | JNull => false
  | JBool b => b
  | JInt z => negb (z =? 0)
  | JStr s => negb (String.eqb s "")
  | JList l => match l with [] => false | _ => true end
  | JObj kvs => match kvs with [] => false | _ => true end
  end.

(** [v[0]]. The keys of a decoded JSON object are strings, so [0] is
    never one of them. *)
Definition getitem0 (v : json) : py json :=
  match v with
  | JList (x :: _) => Ok x
  | JList [] => Raise IndexError
  | JStr (String c _) => Ok (JStr (String c EmptyString))
  | JStr EmptyString => Raise IndexError
  | JObj _ => Raise KeyError
  | _ => Raise TypeError
  end.

(** [v['key']]. *)
Definition getitem_key (v : json) (k : string) : py json :=
  match v with
  | JObj kvs =>
      match obj_lookup k kvs with Some x => Ok x | None => Raise KeyError end
  | _ => Raise TypeError
  end.

(** [v.get('key', default)]: only a dict has [.get]. *)
Definition dict_get (v : json) (k : string) (dflt : json) : py json :=
  match v with
  | JObj kvs => Ok (default dflt (obj_lookup k kvs))
  | _ => Raise AttributeError
  end.

(** [v > 0]: [bool] is a subclass of [int]; any other type raises. *)
Definition py_gt0 (v : json) : py bool :=
  match v with
  | JInt z => Ok (0 <? z)
  | JBool b => Ok b
  | _ => Raise TypeError
  end.

(** Characters for which [str.isspace] holds (ASCII range). *)
Definition is_py_space (c : ascii) : bool :=
  let n := nat_of_ascii c in
  ((9 <=? n) && (n <=? 13))%nat || ((28 <=? n) && (n <=? 32))%nat.

Fixpoint lstrip (l : list ascii) : list ascii :=
  match l with
  | c :: t => if is_py_space c then lstrip t else l
  | [] => []
  end.

(** [str.strip()]. *)
Definition strip (s : string) : string :=
  string_of_list_ascii
    (rev (lstrip (rev (lstrip (list_ascii_of_string s))))).

(** [v.strip()]: only a [str] has [.strip]. *)
Definition py_strip (v : json) : py string :=
  match v with
  | JStr s => Ok (strip s)
  | _ => Raise AttributeError
  end.

(* ================================================================= *)
(** ** Decklist resolver *)

(** The character class [[a-z0-9]]. *)
Definition is_id_char (c : ascii) : bool :=
  let n := nat_of_ascii c in
  ((97 <=? n) && (n <=? 122))%nat || ((48 <=? n) && (n <=? 57))%nat.

(** The greedy run [[a-z0-9]*] at the head of a string, and what follows
    it. *)
Fixpoint id_run (l : list ascii) : list ascii :=
  match l with
  | c :: t => if is_id_char c then c :: id_run t else []
  | [] => []
  end.

Fixpoint after_run (l : list ascii) : list ascii :=
  match l with
  | c :: t => if is_id_char c then after_run t else l
  | [] => []
  end.

(** The rest of [l] after a leading literal [view/]. *)
Definition after_view (l : list ascii) : option (list ascii) :=
  match l with
  | a :: b :: c :: d :: e :: t =>
      if Ascii.eqb a "v" && Ascii.eqb b "i" && Ascii.eqb c "e" &&
         Ascii.eqb d "w" && Ascii.eqb e "/"
      then Some t else None
  | _ => None
  end.

(** First alternative [view/([a-z0-9]+)] tried at the head of [l]. *)
Definition match_view (l : list ascii) : option (list ascii) :=
  match after_view l with
  | Some t => match id_run t with [] => None | r => Some r end
  | None => None
  end.

(** [$] (no MULTILINE): at the end, or before a newline that ends the
    string. *)
Definition at_end (l : list ascii) : bool :=
  match l with
  | [] => true
  | [c] => Ascii.eqb c "010"%char
  | _ => false
  end.

(** Second alternative [([a-z0-9]+)$] tried at the head of [l]. A
    shorter run than the greedy one is followed by an id character, where
    [$] cannot match, so backtracking never succeeds. *)
Definition match_tail (l : list ascii) : option (list ascii) :=
  match id_run l with
  | [] => None
  | r => if at_end (after_run l) then Some r else None
  end.

(** [re.search(r'view/([a-z0-9]+)|([a-z0-9]+)$', url)]: the leftmost
    start position at which the alternation matches, trying the
    alternatives in order; the result is the pair of groups. *)
Fixpoint re_search (l : list ascii)
    : option (option (list ascii) * option (list ascii)) :=
  match match_view l with
  | Some g1 => Some (Some g1, None)
  | None =>
      match match_tail l with
      | Some g2 => Some (None, Some g2)
      | None => match l with [] => None | _ :: t => re_search t end
      end
  end.

(** [extract_deck_id]: [match.group(1) or match.group(2)]. A matched
    group is non-empty, hence truthy. *)
Definition extract_deck_id (url : string) : option string :=
  match re_search (list_ascii_of_string url) with
  | Some (Some g1, _) => Some (string_of_list_ascii g1)
  | Some (None, g2) => option_map string_of_list_ascii g2
  | None => None
  end.

(** The outcome of the [try] around [requests.get], [raise_for_status]
    and [response.json()]: a [RequestException] (timeout, connection
    error, 4xx/5xx status; with requests >= 2.27 also an undecodable
    body), or the decoded JSON document. *)
Inductive fetch_result := FetchFailed | FetchJson (body : json).

(** An output entry [{'name': name, 'quantity': quantity}]; the quantity
    is the JSON value as received. *)
Record DeckEntry := mkDeckEntry {
  de_name : string;
  de_quantity : json
}.

(** The [for entry in decklist_entries] loop. An exception aborts the
    loop and the partial list is discarded by the caller. *)
Fixpoint normalize_entries (entries : list json) : py (list DeckEntry) :=
  match entries with
  | [] => Ok []
  | entry :: rest =>
      card_info <- dict_get entry "card" JNull ;;
      quantity <- dict_get entry "quantity" (JInt 0) ;;
      keep <- (if py_truthy card_info then py_gt0 quantity else Ok false) ;;
      here <- (if keep then
                 name_v <- dict_get card_info "name" (JStr "") ;;
                 name <- py_strip name_v ;;
                 Ok (if String.eqb name "" then []
                     else [mkDeckEntry name quantity])
               else Ok []) ;;
      tail <- normalize_entries rest ;;
      Ok (here ++ tail)
  end.

(** Step 5 of [resolve_decklist_from_url]: the [try] block, and its
    [except (KeyError, IndexError, TypeError)] handler, which evaluates
    [raw_response[0]] again (for the log line) before returning [[]]. *)
Definition parse_decklist (raw_response : json) : py (list DeckEntry) :=
  let body :=
    r0 <- getitem0 raw_response ;;
    r1 <- getitem_key r0 "result" ;;
    r2 <- getitem_key r1 "data" ;;
    decklist_entries <- getitem_key r2 "json" ;;
    match decklist_entries with
    | JList l => normalize_entries l
    | _ => Ok []
    end in
  match body with
  | Ok d => Ok d
  | Raise AttributeError => Raise AttributeError
  | Raise _ => _ <- getitem0 raw_response ;; Ok []
  end.

(** [resolve_decklist_from_url]; [fetch deck_id] is the HTTP exchange for
    the tRPC URL built from [deck_id]. *)
Definition resolve_decklist_from_url (fetch : string -> fetch_result)
    (url : string) : py (list DeckEntry) :=
  match extract_deck_id url with
  | None => Ok []
  | Some deck_id =>
      if String.eqb deck_id "" then Ok []
      else match fetch deck_id with
           | FetchFailed => Ok []
           | FetchJson raw_response => parse_decklist raw_response
           end
  end.

(* ================================================================= *)
(** ** PDF layout engine *)

(** Layout constants of [create_pdf_from_cards], in units of 0.5 mm:
    [CARD_WIDTH_MM, CARD_HEIGHT_MM = 63, 88], [MARGIN_X, MARGIN_Y = 10,
    10], [SPACING = 0.5]. Every coordinate the function computes is a
    multiple of 0.5 mm below 1000 mm, so the Python float arithmetic on
    [x_pos] and [y_pos] is exact and coincides with this integer one. *)
Definition CARD_WIDTH_MM : Z := 126.
Definition CARD_HEIGHT_MM : Z := 176.
Definition MARGIN_X : Z := 20.
Definition MARGIN_Y : Z := 20.
Definition COLS : Z := 3.
Definition ROWS : Z := 3.
Definition SPACING : Z := 1.

(** An entry of [card_list_to_print]: [{'name': ..., 'quantity': ...}],
    the quantity being the JSON value sent by the client. *)
Record PrintEntry := mkPrint {
  pe_name : string;
  pe_quantity : json
}.

(** One [pdf.image(temp_path, x_pos, y_pos, ...)] call, on the page that
    is current at that moment (0-based). *)
Record Cell := mkCell {
  cell_page : Z;
  cell_image : string;
  cell_x : Z;
  cell_y : Z
}.

(** The local state of [create_pdf_from_cards]: the pages added so far,
    the images drawn, the cursor, [card_counter] and
    [temp_files_to_cleanup]. *)
Record PdfState := mkPdf {
  pages : Z;
  cells : list Cell;
  x_pos : Z;
  y_pos : Z;
  card_counter : Z;
  temp_files_to_cleanup : list string
}.

(** [range(v)] accepts an [int] (a [bool] is one); anything else raises
    [TypeError]. A negative count gives an empty range. *)
Definition py_range (v : json) : py nat :=
  match v with
  | JInt z => Ok (Z.to_nat z)
  | JBool b => Ok (if b then 1%nat else 0%nat)
  | _ => Raise TypeError
  end.

(** One iteration of [for i in range(quantity_to_print)]. *)
Definition draw_cell (temp_path : string) (st : PdfState) : PdfState :=
  let st1 :=
    if (0 <? card_counter st) && (card_counter st mod (COLS * ROWS) =? 0)
    then mkPdf (pages st + 1) (cells st) MARGIN_X MARGIN_Y
               (card_counter st) (temp_files_to_cleanup st)
    else st in
  let cell := mkCell (pages st1 - 1) temp_path (x_pos st1) (y_pos st1) in
  let x2 := x_pos st1 + (CARD_WIDTH_MM + SPACING) in
  let '(x3, y3) :=
    if (card_counter st1 + 1) mod COLS =? 0
    then (MARGIN_X, y_pos st1 + (CARD_HEIGHT_MM + SPACING))
    else (x2, y_pos st1) in
  mkPdf (pages st1) (cells st1 ++ [cell]) x3 y3 (card_counter st1 + 1)
        (temp_files_to_cleanup st1).

Fixpoint draw_cells (n : nat) (temp_path : string) (st : PdfState)
    : PdfState :=
  match n with
  | O => st
  | S n' => draw_cells n' temp_path (draw_cell temp_path st)
  end.

(** The side effects visible after the call: serialization of the
    document into the buffer, then one [os.remove] attempt per
    temporary file (its failure ignored). *)
Inductive pdf_event := Serialized | RemoveAttempted (path : string).

Record PdfRun := mkRun {
  run_exn : option exn;
  run_doc : PdfState;
  run_events : list pdf_event
}.

Section PdfLayout.

(** The body of the inner [try] for one card: fetch [image_url], tag it
    with [tag_text], resize it and save it under a fresh [/tmp] path
    derived from the card name. [Some temp_path] when the block
    completes, [None] when it raised (the [except Exception] branch). *)
Variable process_image : string -> string -> string -> option string.
Variable deck_name : string.
Variable card_db : Catalog.

(** [image_url = card_db.get(name, {}).get('image_url')], [None] when
    falsy. *)
Definition card_image_url (name : string) : option string :=
  match card_db !! name with
  | Some m =>
      match ce_image_url m with
      | Some u => if String.eqb u "" then None else Some u
      | None => None
      end
  | None => None
  end.

Definition tag_text : string := "IOU | " ++ deck_name.

(** The outer [for card_entry in card_list_to_print] loop; an exception
    leaving it is returned with the state reached. *)
Fixpoint layout_cards (card_list : list PrintEntry) (st : PdfState)
    : option exn * PdfState :=
  match card_list with
  | [] => (None, st)
  | card_entry :: rest =>
      match card_image_url (pe_name card_entry) with
      | None => layout_cards rest st
      | Some image_url =>
          match process_image (pe_name card_entry) image_url tag_text with
          | None => layout_cards rest st
          | Some temp_path =>
              let st' := mkPdf (pages st) (cells st) (x_pos st) (y_pos st)
                           (card_counter st)
                           (temp_files_to_cleanup st ++ [temp_path]) in
              match py_range (pe_quantity card_entry) with
              | Raise e => (Some e, st')
              | Ok n => layout_cards rest (draw_cells n temp_path st')
              end
          end
      end
  end.

(** The state after [pdf.add_page()] and the cursor initialisation. *)
Definition initial_pdf : PdfState := mkPdf 1 [] MARGIN_X MARGIN_Y 0 [].

(** [create_pdf_from_cards]: an exception of the loop propagates to the
    caller before [pdf.output] and before the cleanup loop. *)
Definition create_pdf_from_cards (card_list_to_print : list PrintEntry)
    : PdfRun :=
  match layout_cards card_list_to_print initial_pdf with
  | (Some e, st) => mkRun (Some e) st []
  | (None, st) =>
      mkRun None st
        (Serialized :: map RemoveAttempted (temp_files_to_cleanup st))
  end.

End PdfLayout.

(** Placement of the running cell [index], as the layout is specified:
    [page = index // 9], [row = (index % 9) // 3], [col = index % 3], the
    cell drawn at [x = 10mm + col * (63mm + 0.5mm)] and
    [y = 10mm + row * (88mm + 0.5mm)] (units of 0.5 mm). *)
Definition placement (index : Z) : Z * Z * Z :=
  (index / 9, (index mod 9) / 3, index mod 3).

Definition cell_at (index : Z) (image : string) : Cell :=
  let '(page, row, col) := placement index in
  mkCell page image (20 + col * 127) (20 + row * 177).

(** The cells of the images [images] drawn from running index [k] on. *)
Fixpoint cells_from (k : Z) (images : list string) : list Cell :=
  match images with
  | [] => []
  | image :: rest => cell_at k image :: cells_from (k + 1) rest
  end.

Section LayoutSpec.

Variable process_image : string -> string -> string -> option string.
Variable deck_name : string.
Variable card_db : Catalog.

(** The sequence of cell images the job asks for: the cards in input
    order, a card whose image was processed into [temp_path] with
    quantity-to-print [N] giving [N] consecutive copies of [temp_path];
    the job stops at a card whose quantity is not a count. *)
Fixpoint job_images (card_list : list PrintEntry) : list string :=
  match card_list with
  | [] => []
  | card_entry :: rest =>
      match card_image_url card_db (pe_name card_entry) with
      | None => job_images rest
      | Some image_url =>
          match process_image (pe_name card_entry) image_url
                  (tag_text deck_name) with
          | None => job_images rest
          | Some temp_path =>
              match py_range (pe_quantity card_entry) with
              | Raise _ => []
              | Ok n => repeat temp_path n ++ job_images rest
              end
          end
      end
  end.

(** The temporary files created by the job, in creation order. *)
Fixpoint created_temps (card_list : list PrintEntry) : list string :=
  match card_list with
  | [] => []
  | card_entry :: rest =>
      match card_image_url card_db (pe_name card_entry) with
      | None => created_temps rest
      | Some image_url =>
          match process_image (pe_name card_entry) image_url
                  (tag_text deck_name) with
          | None => created_temps rest
          | Some temp_path =>
              temp_path ::
              match py_range (pe_quantity card_entry) with
              | Raise _ => []
              | Ok _ => created_temps rest
              end
          end
      end
  end.

(** A card whose image step fails: no image location, or the processing
    block raised. *)
Definition image_fails (card_entry : PrintEntry) : Prop :=
  match card_image_url card_db (pe_name card_entry) with
  | None => True
  | Some image_url =>
      process_image (pe_name card_entry) image_url (tag_text deck_name)
      = None
  end.

End LayoutSpec.

(** The cursor state after [k] drawn cells. After a multiple of 9 the
    cursor has wrapped below the last row; the page is added on the next
    draw. *)
Definition cursor_at (k : Z) (st : PdfState) : Prop :=
  0 <= k /\ card_counter st = k /\
  pages st = (if k =? 0 then 1 else (k - 1) / 9 + 1) /\
  x_pos st = 20 + (k mod 3) * 127 /\
  y_pos st = (if (0 <? k) && (k mod 9 =? 0) then 20 + 3 * 177
              else 20 + ((k mod 9) / 3) * 177).

(** The tRPC batch response [[{"result": {"data": {"json": payload}}}]]. *)
Definition envelope (payload : json) : json :=
  JList [JObj [("result", JObj [("data", JObj [("json", payload)])])]].

(** A decklist entry of the documented shape [{quantity, card: {name}}]:
    the [card] object and its [name], and the integer [quantity], may
    each be absent. *)
Record WireEntry := mkWire {
  w_card : option (option string);
  w_quantity : option Z
}.

Definition wire_to_json (w : WireEntry) : json :=
  JObj ((match w_card w with
         | None => []
         | Some nm =>
             [("card", JObj (match nm with
                             | None => []
                             | Some s => [("name", JStr s)]
                             end))]
         end) ++
        (match w_quantity w with
         | None => []
         | Some q => [("quantity", JInt q)]
         end)).

(** Normalization as the spec words it: an entry missing its card, with a
    non-positive (or absent) quantity, or with a blank name is dropped;
    the others become [{name, quantity}] in source order. *)
Definition spec_keep (w : WireEntry) : option DeckEntry :=
  match w_card w with
  | None => None
  | Some nm =>
      let q := default 0 (w_quantity w) in
      if q <=? 0 then None
      else
        let name := strip (default "" nm) in
        if String.eqb name "" then None else Some (mkDeckEntry name (JInt q))
  end.

Fixpoint spec_normalize (ws : list WireEntry) : list DeckEntry :=
  match ws with
  | [] => []
  | w :: rest =>
      match spec_keep w with
      | Some d => d :: spec_normalize rest
      | None => spec_normalize rest
      end
  end.


(** The literal [view/] as a character list. *)
Abbreviation VIEW := ["v"; "i"; "e"; "w"; "/"]%char.


(* ================================================================= *)
(** ** Collection import: [parse_curiosa_export] *)

(** The whitespace skipped by [int()] around a number: C's [isspace] on
    the ASCII range (space, tab, newline, vertical tab, form feed,
    carriage return). Unlike [str.strip], it does not include the
    separators [\x1c]-[\x1f]. *)
Definition is_c_space (c : ascii) : bool :=
  let n := nat_of_ascii c in ((9 <=? n) && (n <=? 13))%nat || (n =? 32)%nat.

Fixpoint c_lstrip (l : list ascii) : list ascii :=
  match l with
  | c :: t => if is_c_space c then c_lstrip t else l
  | [] => []
  end.

Definition is_digit (c : ascii) : bool :=
  let n := nat_of_ascii c in ((48 <=? n) && (n <=? 57))%nat.

Definition digit_val (c : ascii) : Z := Z.of_nat (nat_of_ascii c) - 48.

(** The run of digits and underscores scanned by CPython's
    [long_from_string_base], and what follows it. *)
Fixpoint num_run (l : list ascii) : list ascii :=
  match l with
  | c :: t => if is_digit c || Ascii.eqb c "_" then c :: num_run t else []
  | [] => []
  end.

Fixpoint num_rest (l : list ascii) : list ascii :=
  match l with
  | c :: t => if is_digit c || Ascii.eqb c "_" then num_rest t else l
  | [] => []
  end.

(** Every underscore of the run is followed by a digit: no double and
    no trailing underscore. *)
Fixpoint underscores_ok (l : list ascii) : bool :=
  match l with
  | [] => true
  | c :: t =>
      if Ascii.eqb c "_" then
        match t with d :: _ => is_digit d && underscores_ok t | [] => false end
      else underscores_ok t
  end.

Definition digits_value (l : list ascii) : Z :=
  fold_left (fun acc c => if is_digit c then acc * 10 + digit_val c else acc)
            l 0.

Definition digit_count (l : list ascii) : nat := length (filter is_digit l).

(** [int(s)] for a [str] in base 10 (CPython 3.11+, default limit of
    4300 digits): optional surrounding whitespace, an optional sign, then
    digits with single underscores between digits. [None] is the
    [ValueError]. *)
Definition py_int (s : string) : option Z :=
  let l := c_lstrip (list_ascii_of_string s) in
  let '(sign, l1) :=
    match l with
    | c :: t =>
        if Ascii.eqb c "+" then (1, t)
        else if Ascii.eqb c "-" then (-1, t)
        else (1, l)
    | [] => (1, [])
    end in
  let r := num_run l1 in
  match r with
  | c :: _ =>
      if is_digit c && underscores_ok r && forallb is_c_space (num_rest l1)
         && (digit_count r <=? 4300)%nat
      then Some (sign * digits_value r)
      else None
  | [] => None
  end.

(** A record split by [csv.reader]; the first record of the file is the
    header ([fieldnames]). *)
Abbreviation CsvRecord := (list string).

(** [dict(zip(fieldnames, row))] at a key: the last equal field name
    wins. *)
Fixpoint zip_lookup (fieldnames row : CsvRecord) (k : string)
    : option string :=
  match fieldnames, row with
  | h :: hs, v :: vs =>
      match zip_lookup hs vs k with
      | Some x => Some x
      | None => if String.eqb h k then Some v else None
      end
  | _, _ => None
  end.

(** The dict built by [csv.DictReader] for [row], at a string key:
    [None] when the key is absent, [Some None] for a field the short row
    does not reach ([restval = None], set after the zip), [Some (Some v)]
    otherwise. Surplus values go under the key [None], never a string. *)
Definition row_get (fieldnames row : CsvRecord) (k : string)
    : option (option string) :=
  if (length row <? length fieldnames)%nat &&
     existsb (String.eqb k) (drop (length row) fieldnames)
  then Some None
  else option_map Some (zip_lookup fieldnames row k).

(** The body of the [for row in reader] loop: [Ok None] when the row is
    skipped ([continue] after a [ValueError], or the [if] fails). A
    [None] field makes [.strip()] raise [AttributeError] or [int()] raise
    [TypeError]; neither is caught. *)
Definition parse_row (fieldnames row : CsvRecord) : py (option OwnedRecord) :=
  card_name <- (match row_get fieldnames row "card name" with
                | None => Ok ""%string
                | Some None => Raise AttributeError
                | Some (Some s) => Ok (strip s)
                end) ;;
  quantity <- (match row_get fieldnames row "quantity" with
               | None => Ok (Some 0)
               | Some None => Raise TypeError
               | Some (Some s) => Ok (py_int s)
               end) ;;
  match quantity with
  | None => Ok None
  | Some q =>
      if negb (String.eqb card_name "") && (0 <? q) then
        Ok (Some (mkOwned card_name q
                   (match row_get fieldnames row "set" with
                    | Some (Some v) => Some v | _ => None end)
                   (match row_get fieldnames row "finish" with
                    | Some (Some v) => Some v | _ => None end)))
      else Ok None
  end.

(** [DictReader] skips empty records. *)
Fixpoint parse_rows (fieldnames : CsvRecord) (rows : list CsvRecord)
    : py (list OwnedRecord) :=
  match rows with
  | [] => Ok []
  | row :: rest =>
      match row with
      | [] => parse_rows fieldnames rest
      | _ :: _ =>
          r <- parse_row fieldnames row ;;
          t <- parse_rows fieldnames rest ;;
          Ok (match r with Some o => o :: t | None => t end)
      end
  end.

(** [parse_curiosa_export] on the records of the file; an empty file has
    no header and no rows. *)
Definition parse_curiosa_export (records : list CsvRecord)
    : py (list OwnedRecord) :=
  match records with
  | [] => Ok []
  | fieldnames :: rows => parse_rows fieldnames rows
  end.

(* ================================================================= *)
(** ** Print endpoint: [print_bucket_endpoint] *)

(** The first two statements of the loop body of [create_pdf_from_cards]
    on a JSON entry, [card_entry['name']] and [card_entry['quantity']],
    and the lookup [card_db.get(name, {})]: a list or dict name is
    unhashable ([TypeError]); a number, boolean or [null] name equals no
    (string) key of the catalog, so the card is skipped ([Ok None]). *)
Definition print_entry_of_json (card_entry : json) : py (option PrintEntry) :=
  name <- getitem_key card_entry "name" ;;
  quantity_to_print <- getitem_key card_entry "quantity" ;;
  match name with
  | JStr s => Ok (Some (mkPrint s quantity_to_print))
  | JList _ | JObj _ => Raise TypeError
  | _ => Ok None
  end.

(** The distinct keys of a decoded object, in first-occurrence order. *)
Fixpoint obj_keys (kvs : list (string * json)) : list string :=
  match kvs with
  | [] => []
  | (k, _) :: t => k :: filter (fun k' => negb (String.eqb k k')) (obj_keys t)
  end.

(** [for card_entry in card_list_to_print]: what iterating the JSON value
    yields (a dict its keys, a str its characters); a number, boolean or
    [null] is not iterable. *)
Definition py_iter (v : json) : py (list json) :=
  match v with
  | JList l => Ok l
  | JObj kvs => Ok (map JStr (obj_keys kvs))
  | JStr s => Ok (map (fun c => JStr (String c EmptyString))
                      (list_ascii_of_string s))
  | _ => Raise TypeError
  end.

Section PrintBucket.

Variable process_image : string -> string -> string -> option string.

(** The loop of [create_pdf_from_cards] over JSON entries: each entry is
    read as above, then handled by one iteration of [layout_cards]. *)
Fixpoint layout_json_cards (deck_name : string) (card_db : Catalog)
    (entries : list json) (st : PdfState) : option exn * PdfState :=
  match entries with
  | [] => (None, st)
  | card_entry :: rest =>
      match print_entry_of_json card_entry with
      | Raise e => (Some e, st)
      | Ok None => layout_json_cards deck_name card_db rest st
      | Ok (Some pe) =>
          match layout_cards process_image deck_name card_db [pe] st with
          | (Some e, st') => (Some e, st')
          | (None, st') => layout_json_cards deck_name card_db rest st'
          end
      end
  end.

(** [create_pdf_from_cards(cards_to_print, deck_name, card_db)] called
    with the JSON value sent by the client. *)
Definition create_pdf_from_json (deck_name : string) (card_db : Catalog)
    (card_list_to_print : json) : PdfRun :=
  match py_iter card_list_to_print with
  | Raise e => mkRun (Some e) initial_pdf []
  | Ok entries =>
      match layout_json_cards deck_name card_db entries initial_pdf with
      | (Some e, st) => mkRun (Some e) st []
      | (None, st) =>
          mkRun None st
            (Serialized :: map RemoveAttempted (temp_files_to_cleanup st))
      end
  end.

(** The response: a JSON error with its HTTP status, or the PDF sent as
    an attachment. *)
Inductive bucket_response :=
  | BucketError (status : Z)
  | BucketPdf (download_name : string) (run : PdfRun).

(** [str(v)] as used by the f-strings on [deck_name]. *)
Variable py_str : json -> string.

(** [print_bucket_endpoint] with the global [CARD_DB] as [card_db] and
    [request.get_json()] as [body] ([None] when it raises on a body that
    is not JSON). Every exception inside the [try] is answered with
    500. *)
Definition print_bucket_endpoint (card_db : Catalog) (body : option json)
    : bucket_response :=
  if (size card_db =? 0)%nat then BucketError 503 else
  match body with
  | None => BucketError 500
  | Some data =>
      match dict_get data "cards" (JList []) with
      | Raise _ => BucketError 500
      | Ok cards_to_print =>
          match dict_get data "deck_name" (JStr "Proxy Deck") with
          | Raise _ => BucketError 500
          | Ok deck_name =>
              if negb (py_truthy cards_to_print) then BucketError 400 else
              let r := create_pdf_from_json (py_str deck_name) card_db
                         cards_to_print in
              match run_exn r with
              | Some _ => BucketError 500
              | None => BucketPdf (py_str deck_name ++ "_Proxy_Sheet.pdf") r
              end
          end
      end
  end.

End PrintBucket.

(** A print-list entry as the client sends it. *)
Definition print_entry_to_json (pe : PrintEntry) : json :=
  JObj [("name", JStr (pe_name pe)); ("quantity", pe_quantity pe)].

(** The image step of a card: [Some temp_path] when it has an image
    location and its processing block completes. *)
Definition image_step (process_image : string -> string -> string -> option string)
    (deck_name : string) (card_db : Catalog) (ce : PrintEntry) : option string :=
  match card_image_url card_db (pe_name ce) with
  | Some u => process_image (pe_name ce) u (tag_text deck_name)
  | None => None
  end.

(** The number of cells a card asks for once its image step succeeded. *)
Definition cells_asked (process_image : string -> string -> string -> option string)
    (deck_name : string) (card_db : Catalog) (ce : PrintEntry) : nat :=
  match image_step process_image deck_name card_db ce, py_range (pe_quantity ce) with
  | Some _, Ok n => n
  | _, _ => 0
  end.

(** Decimal digits of a non-negative integer, most significant first. *)
Definition digit_char (d : Z) : ascii := ascii_of_nat (48 + Z.to_nat d).

Fixpoint digits_rev (fuel : nat) (z : Z) : list ascii :=
  match fuel with
  | O => []
  | S f => if z <? 10 then [digit_char z]
           else digit_char (z mod 10) :: digits_rev f (z / 10)
  end.

Definition decimal (z : Z) : list ascii := rev (digits_rev (S (Z.to_nat z)) z).

(* ================================================================= *)
(** ** Upload endpoint: [generate_proxies_endpoint] *)

(** The [curiosa_export] part of the request: absent, present but not
    valid UTF-8 ([UnicodeDecodeError]), or decoded and split by
    [csv.reader] into its records. *)
Inductive upload :=
  | NoUpload
  | UploadUndecodable
  | UploadRecords (records : list CsvRecord).

(** The response: a JSON error with its HTTP status, an exception that
    leaves the view (Flask answers 500), or the 200 response whose
    ["decklist"] is [enrich_and_match_data(deck_list,
    user_owned_collection, CARD_DB)] on the two lists carried here. *)
Inductive gen_response :=
  | GenError (status : Z)
  | GenUncaught (e : exn)
  | GenOk (deck_list : list DeckEntry) (user_owned_collection : list OwnedRecord).

(** [generate_proxies_endpoint] with the global [CARD_DB] as [card_db],
    [fetch] the HTTP exchange of the resolver, and
    [request.form.get('deck_link')] as [deck_link]. *)
Definition generate_proxies_endpoint (fetch : string -> fetch_result)
    (card_db : Catalog) (file : upload) (deck_link : option string)
    : gen_response :=
  if (size card_db =? 0)%nat then GenError 503 else
  match file with
  | UploadUndecodable => GenError 400
  | _ =>
      let collection :=
        match file with
        | UploadRecords records => parse_curiosa_export records
        | _ => Ok []
        end in
      match collection with
      | Raise e => GenUncaught e
      | Ok [] => GenError 400
      | Ok user_owned_collection =>
          let deck_url := strip (default "" deck_link) in
          let deck_list :=
            if String.eqb deck_url "" then Ok []
            else resolve_decklist_from_url fetch deck_url in
          match deck_list with
          | Raise e => GenUncaught e
          | Ok [] => GenError 400
          | Ok dl => GenOk dl user_owned_collection
          end
      end
  end.

(** An entry of the resolver's output as the code builds it. *)
Definition deck_entry_ok (d : DeckEntry) : Prop :=
  de_name d <> ""%string /\ strip (de_name d) = de_name d /\
  py_gt0 (de_quantity d) = Ok true.


(** A record of the imported collection as the code builds it. *)
Definition owned_ok (o : OwnedRecord) : Prop :=
  o_name o <> ""%string /\ strip (o_name o) = o_name o /\ 0 < o_quantity o.


(* ================================================================= *)
(** * Properties *)

(* ----------------------------------------------------------------- *)
(** ** Enrichment engine *)

Lemma map_lookup_eq {A B} (f : A -> B) (l : list A) (i : nat) :
  map f l !! i = f <$> (l !! i).
Proof. revert i; induction l as [|x l IH]; intros [|i]; simpl; auto. Qed.

Lemma owned_fold_lookup_absent (l : list OwnedRecord) (m : gmap string Z)
    (name : string) :
  Forall (fun r => o_name r <> name) l ->
  fold_left (fun m card => <[o_name card := o_quantity card]> m) l m !! name
  = m !! name.
Proof.
  revert m; induction l as [|r l IH]; intros m Hall; simpl; [done|].
  inversion Hall as [|? ? Hr Hl]; subst.
  rewrite IH by done. by rewrite lookup_insert_ne.
Qed.

Lemma enrich_lookup (decklist : list DeckRequirement)
    (owned_collection : list OwnedRecord) (card_db : Catalog) (i : nat)
    (deck_card : DeckRequirement) :
  decklist !! i = Some deck_card ->
  enrich_and_match_data decklist owned_collection card_db !! i
  = Some (enrich_card (owned_quantities owned_collection) card_db deck_card).
Proof.
  intros Hi. unfold enrich_and_match_data.
  by rewrite map_lookup_eq, Hi.
Qed.

(** C1. For every decklist entry, the enriched card's owned quantity is the
    owned-collection lookup (0 when the name is absent), its status follows
    the decision table (no catalog match: Error_NotFound; match and
    required - owned <= 0: Complete; match, owned > 0 and required - owned
    > 0: Proxy_Needed; match, owned = 0 and required - owned > 0: Missing),
    and net_needed_quantity = max(0, required - owned). *)
Theorem enrich_status_decision_table (decklist : list DeckRequirement)
    (owned_collection : list OwnedRecord) (card_db : Catalog) (i : nat)
    (deck_card : DeckRequirement) (e : EnrichedCard) :
  decklist !! i = Some deck_card ->
  enrich_and_match_data decklist owned_collection card_db !! i = Some e ->
  let name := dr_name deck_card in
  let required_quantity := dr_quantity deck_card in
  let owned_quantity :=
    default 0 (owned_quantities owned_collection !! name) in
  ec_owned_quantity e = owned_quantity /\
  (Forall (fun r => o_name r <> name) owned_collection ->
     ec_owned_quantity e = 0) /\
  (card_db !! name = None -> ec_status e = Error_NotFound) /\
  (is_Some (card_db !! name) -> required_quantity - owned_quantity <= 0 ->
     ec_status e = Complete) /\
  (is_Some (card_db !! name) -> owned_quantity > 0 ->
     required_quantity - owned_quantity > 0 -> ec_status e = Proxy_Needed) /\
  (is_Some (card_db !! name) -> owned_quantity = 0 ->
     required_quantity - owned_quantity > 0 -> ec_status e = Missing) /\
  ec_net_needed_quantity e = Z.max 0 (required_quantity - owned_quantity).
Proof.
  intros Hd He. rewrite (enrich_lookup _ _ _ _ _ Hd) in He.
  injection He as <-. cbn zeta.
  unfold enrich_card; simpl.
  split; [done|]. split.
  { intros Hall. unfold owned_quantities.
    rewrite owned_fold_lookup_absent by done. done. }
  set (o := default 0 (owned_quantities owned_collection !! dr_name deck_card)).
  split; [intros ->; done|].
  split; [intros [m ->] Hle; simpl; by rewrite (proj2 (Z.leb_le _ _) Hle)|].
  split.
  { intros [m ->] Hpos Hneed; simpl.
    rewrite (proj2 (Z.leb_gt _ _)) by lia.
    by rewrite (proj2 (Z.ltb_lt _ _)) by lia. }
  split; [|done].
  intros [m ->] Hzero Hneed; simpl.
  rewrite (proj2 (Z.leb_gt _ _)) by lia.
  by rewrite (proj2 (Z.ltb_ge _ _)) by lia.
Qed.

(** C5. Enrichment preserves order and length and does not merge repeated
    names: the names of the output are exactly the names of the decklist,
    position by position. *)
Theorem enrich_preserves_names (decklist : list DeckRequirement)
    (owned_collection : list OwnedRecord) (card_db : Catalog) :
  map ec_name (enrich_and_match_data decklist owned_collection card_db)
  = map dr_name decklist.
Proof.
  unfold enrich_and_match_data. rewrite map_map.
  apply map_ext. intros d. reflexivity.
Qed.


(* ----------------------------------------------------------------- *)
(** ** Layout engine *)

Ltac zbool :=
  repeat match goal with
  | H : (_ && _) = true |- _ => apply andb_true_iff in H as [? ?]
  | H : (_ && _) = false |- _ => apply andb_false_iff in H as [?|?]
  | H : (_ =? _) = true |- _ => apply Z.eqb_eq in H
  | H : (_ =? _) = false |- _ => apply Z.eqb_neq in H
  | H : (_ <? _) = true |- _ => apply Z.ltb_lt in H
  | H : (_ <? _) = false |- _ => apply Z.ltb_ge in H
  end.

Ltac zlia := Z.to_euclidean_division_equations; lia.

Ltac split_ifs :=
  repeat match goal with
  | |- context [if ?b then _ else _] => destruct b eqn:?
  end; zbool.

Lemma draw_cell_at (k : Z) (p : string) (st : PdfState) :
  cursor_at k st ->
  cursor_at (k + 1) (draw_cell p st) /\
  cells (draw_cell p st) = cells st ++ [cell_at k p] /\
  temp_files_to_cleanup (draw_cell p st) = temp_files_to_cleanup st.
Proof.
  destruct st as [pg cs x y cnt tmp].
  intros (Hk & Hc & Hp & Hx & Hy); simpl in *; subst.
  unfold draw_cell, cell_at, placement, cursor_at.
  replace (COLS * ROWS) with 9 by reflexivity.
  unfold COLS, MARGIN_X, MARGIN_Y, CARD_WIDTH_MM, CARD_HEIGHT_MM, SPACING.
  simpl.
  destruct ((0 <? k) && (k mod 9 =? 0)) eqn:Hbrk; simpl;
  destruct ((k + 1) mod 3 =? 0) eqn:Hrow; simpl; zbool;
  split_ifs; (split; [repeat apply conj; zlia|]);
  (split; [|reflexivity]); do 3 f_equal; zlia.
Qed.

Lemma cells_from_app (k : Z) (a b : list string) :
  cells_from k (a ++ b) = cells_from k a ++ cells_from (k + Z.of_nat (length a)) b.
Proof.
  revert k; induction a as [|x a IH]; intros k; simpl.
  - by rewrite Z.add_0_r.
  - rewrite IH. do 3 f_equal. lia.
Qed.

Lemma draw_cells_at (n : nat) (k : Z) (p : string) (st : PdfState) :
  cursor_at k st ->
  cursor_at (k + Z.of_nat n) (draw_cells n p st) /\
  cells (draw_cells n p st) = cells st ++ cells_from k (repeat p n) /\
  temp_files_to_cleanup (draw_cells n p st) = temp_files_to_cleanup st.
Proof.
  revert k st; induction n as [|n IH]; intros k st Hc.
  - cbn [draw_cells repeat cells_from]. rewrite Z.add_0_r, app_nil_r. done.
  - cbn [draw_cells repeat cells_from].
    destruct (draw_cell_at k p st Hc) as (Hc1 & Hcl1 & Ht1).
    destruct (IH _ _ Hc1) as (Hc2 & Hcl2 & Ht2).
    replace (k + Z.of_nat (S n)) with (k + 1 + Z.of_nat n) by lia.
    split; [done|]. split; [|congruence].
    rewrite Hcl2, Hcl1, <- app_assoc. done.
Qed.

(** Recording a new temporary file leaves the cursor untouched. *)
Lemma cursor_at_temp (k : Z) (st : PdfState) (extra : list string) :
  cursor_at k st ->
  cursor_at k (mkPdf (pages st) (cells st) (x_pos st) (y_pos st)
                 (card_counter st) extra).
Proof. done. Qed.

Lemma layout_cards_at
    (process_image : string -> string -> string -> option string)
    (deck_name : string) (card_db : Catalog) (card_list : list PrintEntry)
    (k : Z) (st : PdfState) :
  cursor_at k st ->
  let imgs := job_images process_image deck_name card_db card_list in
  let r := layout_cards process_image deck_name card_db card_list st in
  cursor_at (k + Z.of_nat (length imgs)) r.2 /\
  cells r.2 = cells st ++ cells_from k imgs /\
  temp_files_to_cleanup r.2 = temp_files_to_cleanup st ++
    created_temps process_image deck_name card_db card_list.
Proof.
  revert k st; induction card_list as [|c rest IH]; intros k st Hc.
  - cbn. rewrite Z.add_0_r, !app_nil_r. done.
  - cbn zeta. cbn [layout_cards job_images created_temps].
    destruct (card_image_url card_db (pe_name c)) as [u|]; [|apply IH, Hc].
    destruct (process_image (pe_name c) u (tag_text deck_name)) as [tp|];
      [|apply IH, Hc].
    pose proof (cursor_at_temp k st (temp_files_to_cleanup st ++ [tp]) Hc)
      as Hc'.
    destruct (py_range (pe_quantity c)) as [n|e]; simpl.
    + destruct (draw_cells_at n k tp _ Hc') as (H1 & H2 & H3).
      destruct (IH _ _ H1) as (H4 & H5 & H6).
      rewrite length_app, repeat_length, Nat2Z.inj_add, Z.add_assoc.
      split; [done|]. split.
      * rewrite H5, H2, cells_from_app, repeat_length, app_assoc. done.
      * rewrite H6, H3; simpl. rewrite <- app_assoc. done.
    + rewrite Z.add_0_r, !app_nil_r. done.
Qed.

Lemma cursor_at_initial : cursor_at 0 initial_pdf.
Proof. unfold cursor_at, initial_pdf; simpl. repeat apply conj; done. Qed.

Lemma layout_cards_app
    (process_image : string -> string -> string -> option string)
    (deck_name : string) (card_db : Catalog) (pre rest : list PrintEntry)
    (st : PdfState) :
  layout_cards process_image deck_name card_db (pre ++ rest) st
  = match layout_cards process_image deck_name card_db pre st with
    | (Some e, st') => (Some e, st')
    | (None, st') => layout_cards process_image deck_name card_db rest st'
    end.
Proof.
  revert st; induction pre as [|c pre IH]; intros st; [done|].
  simpl. destruct (card_image_url card_db (pe_name c)) as [u|]; [|apply IH].
  destruct (process_image (pe_name c) u (tag_text deck_name)) as [tp|];
    [|apply IH].
  destruct (py_range (pe_quantity c)); [apply IH|done].
Qed.

Lemma layout_cards_skip
    (process_image : string -> string -> string -> option string)
    (deck_name : string) (card_db : Catalog) (bad : PrintEntry)
    (rest : list PrintEntry) (st : PdfState) :
  image_fails process_image deck_name card_db bad ->
  layout_cards process_image deck_name card_db (bad :: rest) st
  = layout_cards process_image deck_name card_db rest st.
Proof.
  unfold image_fails; simpl.
  destruct (card_image_url card_db (pe_name bad)) as [u|]; [|done].
  intros ->. done.
Qed.

Lemma cells_from_first_page (tp : string) (n : nat) (k : Z) :
  0 <= k -> k + Z.of_nat n <= 9 ->
  Forall (fun c => cell_page c = 0 /\ cell_image c = tp)
         (cells_from k (repeat tp n)).
Proof.
  revert k; induction n as [|n IH]; intros k Hk Hn; simpl; constructor.
  - unfold cell_at, placement; simpl. split; [|done].
    apply Z.div_small. lia.
  - apply IH; lia.
Qed.

(** C3. The cells of the document are placed by the running index over
    the cells actually drawn: the k-th drawn cell (k = 0, 1, ...) is on
    page k // 9, row (k % 9) // 3, column k % 3, at x = 10mm + col * 63.5mm
    and y = 10mm + row * 88.5mm; the images follow the job's input order,
    a card with quantity-to-print N giving N consecutive cells of its
    tagged image. The spec's sample indices 0, 8 and 9 are included. *)
Theorem layout_placement_by_running_index
    (process_image : string -> string -> string -> option string)
    (deck_name : string) (card_db : Catalog) (card_list : list PrintEntry) :
  cells (run_doc (create_pdf_from_cards process_image deck_name card_db
                    card_list))
  = cells_from 0 (job_images process_image deck_name card_db card_list) /\
  placement 0 = (0, 0, 0) /\ placement 8 = (0, 2, 2) /\
  placement 9 = (1, 0, 0).
Proof.
  split; [|done].
  destruct (layout_cards_at process_image deck_name card_db card_list 0
              initial_pdf cursor_at_initial) as (_ & Hcells & _).
  unfold create_pdf_from_cards.
  destruct (layout_cards process_image deck_name card_db card_list
              initial_pdf) as [[e|] st]; simpl in *; exact Hcells.
Qed.

(** C7. A card whose image step fails (no image location in the catalog,
    or the fetch/processing block raised) is skipped without any effect:
    the run on a job containing it is the run on the job without it (same
    cells, same cursor, same counter, same temporary files, same outcome).
    In particular a job made of one such card and one valid card with
    quantity-to-print q <= 9, in either order, completes with a one-page
    document whose cells are exactly the q cells of the valid card's
    tagged image, placed from index 0. *)
Theorem layout_skips_failed_card
    (process_image : string -> string -> string -> option string)
    (deck_name : string) (card_db : Catalog) :
  (forall (pre post : list PrintEntry) (bad : PrintEntry),
     image_fails process_image deck_name card_db bad ->
     create_pdf_from_cards process_image deck_name card_db (pre ++ bad :: post)
     = create_pdf_from_cards process_image deck_name card_db (pre ++ post)) /\
  (forall (bad good : PrintEntry) (u tp : string) (q : Z)
          (job : list PrintEntry),
     image_fails process_image deck_name card_db bad ->
     card_image_url card_db (pe_name good) = Some u ->
     process_image (pe_name good) u (tag_text deck_name) = Some tp ->
     pe_quantity good = JInt q -> q <= 9 ->
     job = [bad; good] \/ job = [good; bad] ->
     let r := create_pdf_from_cards process_image deck_name card_db job in
     run_exn r = None /\ pages (run_doc r) = 1 /\
     cells (run_doc r) = cells_from 0 (repeat tp (Z.to_nat q)) /\
     Forall (fun c => cell_page c = 0 /\ cell_image c = tp)
            (cells (run_doc r))).
Proof.
  assert (Hskip : forall (pre post : list PrintEntry) (bad : PrintEntry),
     image_fails process_image deck_name card_db bad ->
     create_pdf_from_cards process_image deck_name card_db (pre ++ bad :: post)
     = create_pdf_from_cards process_image deck_name card_db (pre ++ post)).
  { intros pre post bad Hbad. unfold create_pdf_from_cards.
    rewrite !layout_cards_app.
    destruct (layout_cards process_image deck_name card_db pre initial_pdf)
      as [[e|] st]; [done|].
    rewrite layout_cards_skip by done. done. }
  split; [exact Hskip|].
  intros bad good u tp q job Hbad Hu Htp Hq Hle Hjob.
  assert (Hone : create_pdf_from_cards process_image deck_name card_db job
                 = create_pdf_from_cards process_image deck_name card_db [good]).
  { destruct Hjob as [->| ->].
    - apply (Hskip [] [good] bad Hbad).
    - exact (Hskip [good] [] bad Hbad). }
  cbn zeta. rewrite Hone.
  unfold create_pdf_from_cards; simpl.
  rewrite Hu, Htp, Hq; simpl.
  pose proof (cursor_at_temp 0 initial_pdf [tp] cursor_at_initial) as Hc.
  pose proof (draw_cells_at (Z.to_nat q) 0 tp _ Hc) as Hd.
  unfold cursor_at in Hd. simpl in Hd |- *. destruct Hd as ((_ & _ & Hp & _) & Hcl & _).
  split; [done|]. split.
  { rewrite Hp. split_ifs; zlia. }
  rewrite Hcl; simpl. split; [done|].
  apply cells_from_first_page; lia.
Qed.

(** C9 (as the code does it). The temporary files recorded for cleanup are
    exactly the files created by the job; when the function returns, the
    document is serialized first and then the removal of every one of them
    is attempted; when an exception leaves the layout loop, the function
    raises before serialization and attempts no removal. *)
Theorem cleanup_after_serialization_on_return
    (process_image : string -> string -> string -> option string)
    (deck_name : string) (card_db : Catalog) (card_list : list PrintEntry) :
  let r := create_pdf_from_cards process_image deck_name card_db card_list in
  let created := created_temps process_image deck_name card_db card_list in
  temp_files_to_cleanup (run_doc r) = created /\
  (run_exn r = None ->
     run_events r = Serialized :: map RemoveAttempted created) /\
  (forall e, run_exn r = Some e -> run_events r = []).
Proof.
  destruct (layout_cards_at process_image deck_name card_db card_list 0
              initial_pdf cursor_at_initial) as (_ & _ & Htmp).
  cbn zeta. unfold create_pdf_from_cards.
  destruct (layout_cards process_image deck_name card_db card_list
              initial_pdf) as [[e|] st]; simpl in *.
  - split; [done|]. split; [discriminate|done].
  - rewrite Htmp. split; [done|]. split; [done|discriminate].
Qed.

(** C9 counterexample: a job whose only card has its image processed into
    a temporary file and then a quantity-to-print that is not an integer
    (the JSON string "2"): [range("2")] raises [TypeError], the document is
    never serialized, and no removal of the created temporary file is
    attempted. *)
Lemma cleanup_skipped_when_generation_fails :
  let r := create_pdf_from_cards (fun _ _ _ => Some "/tmp/t0_Card.png")
             "Deck"
             {[ "Card" := mkCatalogEntry (Some "https://img/card.png")
                            None None None None ]}
             [mkPrint "Card" (JStr "2")] in
  run_exn r = Some TypeError /\
  In "/tmp/t0_Card.png" (temp_files_to_cleanup (run_doc r)) /\
  ~ In (RemoveAttempted "/tmp/t0_Card.png") (run_events r) /\
  ~ In Serialized (run_events r).
Proof.
  vm_compute. repeat apply conj; auto.
Qed.

(* ----------------------------------------------------------------- *)
(** ** Decklist resolver *)

Lemma match_view_nonempty (l r : list ascii) :
  match_view l = Some r -> r <> [].
Proof.
  unfold match_view. destruct (after_view l) as [t|]; [|discriminate].
  destruct (id_run t); [discriminate|]. intros H; inversion H; discriminate.
Qed.

Lemma match_tail_nonempty (l r : list ascii) :
  match_tail l = Some r -> r <> [].
Proof.
  unfold match_tail. destruct (id_run l) as [|c t]; [discriminate|].
  destruct (at_end (after_run l)); [intros [= <-]; discriminate|discriminate].
Qed.

Lemma re_search_groups (l : list ascii) (g1 g2 : option (list ascii)) :
  re_search l = Some (g1, g2) ->
  (exists r, g1 = Some r /\ r <> []) \/
  (g1 = None /\ exists r, g2 = Some r /\ r <> []).
Proof.
  induction l as [|c l IH].
  - discriminate.
  - cbn [re_search]. destruct (match_view (c :: l)) as [r|] eqn:Hv.
    + intros H; inversion H; subst. left. exists r. split; [done|].
      exact (match_view_nonempty _ _ Hv).
    + destruct (match_tail (c :: l)) as [r|] eqn:Ht.
      * intros H; inversion H; subst. right. split; [done|].
        exists r. split; [done|].
        exact (match_tail_nonempty _ _ Ht).
      * exact IH.
Qed.

Lemma extract_deck_id_nonempty (url deck_id : string) :
  extract_deck_id url = Some deck_id -> deck_id <> ""%string.
Proof.
  unfold extract_deck_id.
  destruct (re_search (list_ascii_of_string url)) as [[g1 g2]|] eqn:E;
    [|discriminate].
  destruct (re_search_groups _ _ _ E) as [(r & -> & Hr)|(-> & r & -> & Hr)];
    simpl; intros [= <-]; destruct r; simpl; congruence.
Qed.


Lemma resolve_envelope (fetch : string -> fetch_result) (url deck_id : string)
    (payload : json) :
  extract_deck_id url = Some deck_id ->
  fetch deck_id = FetchJson (envelope payload) ->
  resolve_decklist_from_url fetch url
  = match payload with
    | JList l =>
        match normalize_entries l with
        | Ok d => Ok d
        | Raise AttributeError => Raise AttributeError
        | Raise _ => Ok []
        end
    | _ => Ok []
    end.
Proof.
  intros Hid Hf. unfold resolve_decklist_from_url. rewrite Hid.
  destruct (String.eqb deck_id "") eqn:E.
  { apply String.eqb_eq in E. by apply extract_deck_id_nonempty in Hid. }
  rewrite Hf. unfold parse_decklist, envelope; simpl.
  destruct payload as [| | | |l|]; simpl; try done.
Qed.

Ltac apply_leb :=
  repeat match goal with
  | H : (_ <=? _) = true |- _ => apply Z.leb_le in H
  | H : (_ <=? _) = false |- _ => apply Z.leb_gt in H
  end; zbool.

Lemma normalize_wire (ws : list WireEntry) :
  normalize_entries (map wire_to_json ws) = Ok (spec_normalize ws).
Proof.
  induction ws as [|[[nm|] q] ws IH]; [done| |].
  - simpl. rewrite IH. unfold spec_keep; simpl.
    destruct nm as [s|]; destruct q as [q|]; simpl.
    + destruct (q <=? 0) eqn:E1; destruct (0 <? q) eqn:E2; simpl;
        apply_leb; try lia; [done|].
      destruct (String.eqb (strip s) ""); done.
    + done.
    + destruct (q <=? 0) eqn:E1; destruct (0 <? q) eqn:E2; simpl;
        apply_leb; try lia; done.
    + done.
  - simpl. rewrite IH. destruct q; done.
Qed.

Lemma spec_normalize_positive (ws : list WireEntry) :
  Forall (fun d => py_gt0 (de_quantity d) = Ok true) (spec_normalize ws).
Proof.
  induction ws as [|w ws IH]; simpl; [constructor|].
  destruct (spec_keep w) as [d|] eqn:E; [|exact IH].
  constructor; [|exact IH].
  unfold spec_keep in E. destruct (w_card w) as [nm|]; [|discriminate].
  destruct (default 0 (w_quantity w) <=? 0) eqn:Hq; [discriminate|].
  destruct (String.eqb _ _); [discriminate|].
  injection E as <-. simpl. apply Z.leb_gt in Hq. f_equal.
  by apply Z.ltb_lt.
Qed.

(** C6. For a response carrying entries of the documented shape, the
    resolver's output is the source-ordered list of [{name, quantity}]
    of the entries that have a card sub-object, a positive quantity and a
    non-blank name (every other entry is silently dropped), and every
    output quantity is > 0. *)
Theorem resolver_drops_incomplete_entries (fetch : string -> fetch_result)
    (url deck_id : string) (ws : list WireEntry) :
  extract_deck_id url = Some deck_id ->
  fetch deck_id = FetchJson (envelope (JList (map wire_to_json ws))) ->
  resolve_decklist_from_url fetch url = Ok (spec_normalize ws) /\
  Forall (fun d => py_gt0 (de_quantity d) = Ok true) (spec_normalize ws).
Proof.
  intros Hid Hf. split; [|apply spec_normalize_positive].
  rewrite (resolve_envelope fetch url deck_id _ Hid Hf).
  by rewrite normalize_wire.
Qed.

(** C2 (as the code does it). The resolver reads [result.data.json] of the
    first batch element and accepts it only when it is a list: a bare list
    payload is normalized entry by entry, while a payload that is not a
    list yields [[]]; in particular a payload nesting the entries under a
    ["decklist"] key is not looked into and resolves to [[]]. *)
Theorem resolver_accepts_only_bare_list (fetch : string -> fetch_result)
    (url deck_id : string) :
  extract_deck_id url = Some deck_id ->
  (forall ws : list WireEntry,
     fetch deck_id = FetchJson (envelope (JList (map wire_to_json ws))) ->
     resolve_decklist_from_url fetch url = Ok (spec_normalize ws)) /\
  (forall payload : json,
     (forall l, payload <> JList l) ->
     fetch deck_id = FetchJson (envelope payload) ->
     resolve_decklist_from_url fetch url = Ok []) /\
  (forall entries : list json,
     fetch deck_id = FetchJson (envelope (JObj [("decklist", JList entries)])) ->
     resolve_decklist_from_url fetch url = Ok []).
Proof.
  intros Hid. split; [|split].
  - intros ws Hf. rewrite (resolve_envelope fetch url deck_id _ Hid Hf).
    by rewrite normalize_wire.
  - intros payload Hnl Hf. rewrite (resolve_envelope fetch url deck_id _ Hid Hf).
    destruct payload as [| | | |l|]; try done. by destruct (Hnl l).
  - intros entries Hf. by rewrite (resolve_envelope fetch url deck_id _ Hid Hf).
Qed.

(** C2 counterexample: one entry [{card: {name: "Mesmerism"}, quantity: 2}]
    resolves to [[{Mesmerism, 2}]] when the payload is the list itself but
    to [[]] when the same list is nested under ["decklist"]. *)
Lemma resolver_shapes_disagree :
  let url := "https://curiosa.io/decks/view/cmiwp5nmv6idr05eb8a09qm0d"%string in
  let entries := [JObj [("quantity", JInt 2);
                        ("card", JObj [("name", JStr "Mesmerism")])]] in
  resolve_decklist_from_url (fun _ => FetchJson (envelope (JList entries))) url
  = Ok [mkDeckEntry "Mesmerism" (JInt 2)] /\
  resolve_decklist_from_url
    (fun _ => FetchJson (envelope (JObj [("decklist", JList entries)]))) url
  = Ok [].
Proof. split; vm_compute; reflexivity. Qed.

(** C4 (failing input). A fetch that succeeds with HTTP 200 and the JSON
    body [[]] (an empty batch, which lacks the expected element and keys):
    [raw_response[0]] raises [IndexError], which the [except] clause
    catches, but its log line evaluates [raw_response[0]] again and the
    [IndexError] escapes to the caller. The body [{}] likewise raises
    [KeyError], and a non-object entry in the list raises
    [AttributeError], which the clause does not catch. *)
Theorem resolver_raises_on_empty_batch :
  let url := "https://curiosa.io/decks/view/cmiwp5nmv6idr05eb8a09qm0d"%string in
  resolve_decklist_from_url (fun _ => FetchJson (JList [])) url
  = Raise IndexError /\
  resolve_decklist_from_url (fun _ => FetchJson (JObj [])) url
  = Raise KeyError /\
  resolve_decklist_from_url
    (fun _ => FetchJson (envelope (JList [JStr "Mesmerism"]))) url
  = Raise AttributeError.
Proof. repeat apply conj; vm_compute; reflexivity. Qed.

(* ----------------------------------------------------------------- *)
(** ** Deck-ID extraction *)
















(* ----------------------------------------------------------------- *)
(** ** Instances at concrete inputs *)

(** C1 at a deck asking for 3 copies of a catalogued card owned once:
    Proxy_Needed, 2 still needed. *)
Lemma enrich_status_decision_table_witness :
  let dl := [mkReq "Mesmerism" 3] in
  let ow := [mkOwned "Mesmerism" 1 None None] in
  let db : Catalog :=
    {[ "Mesmerism" := mkCatalogEntry (Some "https://img/m.png") None None
                        None None ]} in
  let e := enrich_card (owned_quantities ow) db (mkReq "Mesmerism" 3) in
  ec_status e = Proxy_Needed /\ ec_net_needed_quantity e = 2.
Proof.
  intros dl ow db e.
  assert (H1 : dl !! 0%nat = Some (mkReq "Mesmerism" 3)) by reflexivity.
  assert (H2 : enrich_and_match_data dl ow db !! 0%nat = Some e)
    by (vm_compute; reflexivity).
  destruct (enrich_status_decision_table dl ow db 0 _ _ H1 H2)
    as (_ & _ & _ & _ & Hp & _ & Hn).
  split.
  - apply Hp; vm_compute; [eexists; reflexivity | reflexivity | reflexivity].
  - rewrite Hn. vm_compute. reflexivity.
Defined.


(** C7 at a job of an uncatalogued card followed by a card printed twice. *)
Lemma layout_skips_failed_card_witness :
  let pi := fun (name u tag : string) =>
    if String.eqb name "Good" then Some "/tmp/t1_Good.png"%string else None in
  let db : Catalog :=
    {[ "Good" := mkCatalogEntry (Some "https://img/good.png") None None
                   None None ]} in
  let r := create_pdf_from_cards pi "Deck" db
             [mkPrint "Bad" (JInt 1); mkPrint "Good" (JInt 2)] in
  run_exn r = None /\ pages (run_doc r) = 1 /\
  cells (run_doc r) = cells_from 0 (repeat "/tmp/t1_Good.png"%string 2) /\
  Forall (fun c => cell_page c = 0 /\ cell_image c = "/tmp/t1_Good.png"%string)
         (cells (run_doc r)).
Proof.
  intros pi db.
  refine (proj2 (layout_skips_failed_card pi "Deck" db)
            (mkPrint "Bad" (JInt 1)) (mkPrint "Good" (JInt 2))
            "https://img/good.png" "/tmp/t1_Good.png" 2 _ _ _ _ _ _ _).
  - vm_compute. exact I.
  - vm_compute. reflexivity.
  - vm_compute. reflexivity.
  - reflexivity.
  - lia.
  - left. reflexivity.
Defined.

(** C9 at a job whose one card is printed once: the document is
    serialized, then the removal of its temporary file is attempted. *)
Lemma cleanup_after_serialization_on_return_witness :
  run_events (create_pdf_from_cards (fun _ _ _ => Some "/tmp/t0_Card.png")
                "Deck"
                {[ "Card" := mkCatalogEntry (Some "https://img/card.png")
                               None None None None ]}
                [mkPrint "Card" (JInt 1)])
  = [Serialized; RemoveAttempted "/tmp/t0_Card.png"].
Proof.
  destruct (cleanup_after_serialization_on_return
              (fun _ _ _ => Some "/tmp/t0_Card.png") "Deck"
              {[ "Card" := mkCatalogEntry (Some "https://img/card.png")
                             None None None None ]}
              [mkPrint "Card" (JInt 1)]) as (_ & Hok & _).
  rewrite Hok.
  - vm_compute. reflexivity.
  - vm_compute. reflexivity.
Defined.

(** C6 at a batch with one good entry, one without a card, one with a
    blank name and one with quantity 0. *)
Lemma resolver_drops_incomplete_entries_witness :
  let ws := [mkWire (Some (Some "Mesmerism")) (Some 2);
             mkWire None (Some 1);
             mkWire (Some (Some "  ")) (Some 3);
             mkWire (Some (Some "Bolt")) (Some 0)] in
  let fetch := fun _ : string => FetchJson (envelope (JList (map wire_to_json ws))) in
  resolve_decklist_from_url fetch
    "https://curiosa.io/decks/view/cmiwp5nmv6idr05eb8a09qm0d"
  = Ok [mkDeckEntry "Mesmerism" (JInt 2)].
Proof.
  intros ws fetch.
  destruct (resolver_drops_incomplete_entries fetch
              "https://curiosa.io/decks/view/cmiwp5nmv6idr05eb8a09qm0d"
              "cmiwp5nmv6idr05eb8a09qm0d" ws) as [H _].
  - vm_compute. reflexivity.
  - reflexivity.
  - rewrite H. vm_compute. reflexivity.
Defined.

(** C2 at the sample URL, with a fetch answering a payload nested under
    ["decklist"]. *)
Lemma resolver_accepts_only_bare_list_witness :
  let fetch := fun _ : string =>
    FetchJson (envelope (JObj [("decklist",
      JList [JObj [("quantity", JInt 2);
                   ("card", JObj [("name", JStr "Mesmerism")])]])])) in
  resolve_decklist_from_url fetch
    "https://curiosa.io/decks/view/cmiwp5nmv6idr05eb8a09qm0d" = Ok [].
Proof.
  intros fetch.
  destruct (resolver_accepts_only_bare_list fetch
              "https://curiosa.io/decks/view/cmiwp5nmv6idr05eb8a09qm0d"
              "cmiwp5nmv6idr05eb8a09qm0d") as (_ & _ & H).
  - vm_compute. reflexivity.
  - apply (H [JObj [("quantity", JInt 2);
                    ("card", JObj [("name", JStr "Mesmerism")])]]).
    reflexivity.
Defined.


(* ================================================================= *)
(** * Further properties of the code *)

(* ----------------------------------------------------------------- *)
(** ** Layout engine: geometry of the document *)

Lemma create_pdf_shape
    (process_image : string -> string -> string -> option string)
    (deck_name : string) (card_db : Catalog) (card_list : list PrintEntry) :
  let r := create_pdf_from_cards process_image deck_name card_db card_list in
  let imgs := job_images process_image deck_name card_db card_list in
  cells (run_doc r) = cells_from 0 imgs /\
  cursor_at (Z.of_nat (length imgs)) (run_doc r) /\
  temp_files_to_cleanup (run_doc r)
  = created_temps process_image deck_name card_db card_list.
Proof.
  destruct (layout_cards_at process_image deck_name card_db card_list 0
              initial_pdf cursor_at_initial) as (Hc & Hcl & Ht).
  cbn zeta in *. unfold create_pdf_from_cards.
  destruct (layout_cards process_image deck_name card_db card_list
              initial_pdf) as [[e|] st]; simpl in *; auto.
Qed.

Lemma length_cells_from (k : Z) (l : list string) :
  length (cells_from k l) = length l.
Proof. revert k; induction l; intros k; simpl; auto. Qed.

Lemma cells_from_lookup (k : Z) (l : list string) (i : nat) :
  cells_from k l !! i = (fun img => cell_at (k + Z.of_nat i) img) <$> l !! i.
Proof.
  revert k i; induction l as [|x l IH]; intros k [|i]; simpl; auto.
  - by rewrite Z.add_0_r.
  - rewrite IH. do 2 f_equal. lia.
Qed.

Lemma cells_from_images (k : Z) (l : list string) :
  map cell_image (cells_from k l) = l.
Proof.
  revert k; induction l as [|x l IH]; intros k; simpl; [done|].
  rewrite IH. unfold cell_at, placement. done.
Qed.

Lemma cell_at_fields (i : Z) (img : string) :
  cell_page (cell_at i img) = i / 9 /\
  cell_x (cell_at i img) = 20 + (i mod 3) * 127 /\
  cell_y (cell_at i img) = 20 + ((i mod 9) / 3) * 177 /\
  cell_image (cell_at i img) = img.
Proof. unfold cell_at, placement. done. Qed.

Lemma job_images_in_temps
    (process_image : string -> string -> string -> option string)
    (deck_name : string) (card_db : Catalog) (card_list : list PrintEntry)
    (x : string) :
  In x (job_images process_image deck_name card_db card_list) ->
  In x (created_temps process_image deck_name card_db card_list).
Proof.
  induction card_list as [|c rest IH]; simpl; [done|].
  destruct (card_image_url card_db (pe_name c)) as [u|]; [|exact IH].
  destruct (process_image (pe_name c) u (tag_text deck_name)) as [tp|];
    [|exact IH].
  destruct (py_range (pe_quantity c)) as [n|e]; [|done].
  intros Hx. apply in_app_or in Hx as [Hx|Hx].
  - apply repeat_spec in Hx. subst. left. done.
  - right. auto.
Qed.

Lemma layout_ok_counts
    (process_image : string -> string -> string -> option string)
    (deck_name : string) (card_db : Catalog) (card_list : list PrintEntry)
    (st : PdfState) :
  fst (layout_cards process_image deck_name card_db card_list st) = None ->
  created_temps process_image deck_name card_db card_list
  = omap (image_step process_image deck_name card_db) card_list /\
  length (job_images process_image deck_name card_db card_list)
  = sum_list_with (cells_asked process_image deck_name card_db) card_list.
Proof.
  revert st; induction card_list as [|c rest IH]; intros st; [done|].
  simpl. intros H.
  unfold cells_asked at 1. unfold image_step.
  destruct (card_image_url card_db (pe_name c)) as [u|];
    [|destruct (IH _ H) as [-> ->]; done].
  destruct (process_image (pe_name c) u (tag_text deck_name)) as [tp|];
    [|destruct (IH _ H) as [-> ->]; done].
  destruct (py_range (pe_quantity c)) as [n|e]; [|discriminate].
  destruct (IH _ H) as [H1 H2].
  rewrite H1, length_app, repeat_length, H2. done.
Qed.

(** The page count of the document: one page for the first cell (or
    for none), then one more for every further 9 cells; the pages are
    counted as they are when the function returns or raises. *)
Theorem pdf_page_count
    (process_image : string -> string -> string -> option string)
    (deck_name : string) (card_db : Catalog) (card_list : list PrintEntry) :
  let r := create_pdf_from_cards process_image deck_name card_db card_list in
  let n := Z.of_nat (length (cells (run_doc r))) in
  pages (run_doc r) = (if n =? 0 then 1 else (n - 1) / 9 + 1).
Proof.
  destruct (create_pdf_shape process_image deck_name card_db card_list)
    as (Hc & (_ & _ & Hp & _) & _).
  cbn zeta in *. rewrite Hc, length_cells_from. exact Hp.
Qed.

(** Every cell lies on an existing page and inside a US Letter sheet
    (215.9 mm x 279.4 mm): in units of 0.5 mm, its left edge is at least
    20 and its right edge at most 400, its top edge at least 20 and its
    bottom edge at most 550. *)
Theorem pdf_cells_within_page
    (process_image : string -> string -> string -> option string)
    (deck_name : string) (card_db : Catalog) (card_list : list PrintEntry) :
  let r := create_pdf_from_cards process_image deck_name card_db card_list in
  Forall (fun c => 0 <= cell_page c < pages (run_doc r) /\
                   20 <= cell_x c /\ cell_x c + CARD_WIDTH_MM <= 400 /\
                   20 <= cell_y c /\ cell_y c + CARD_HEIGHT_MM <= 550)
         (cells (run_doc r)).
Proof.
  destruct (create_pdf_shape process_image deck_name card_db card_list)
    as (Hc & (_ & _ & Hp & _) & _).
  cbn zeta in *. rewrite Hp, Hc.
  apply Forall_lookup. intros i c Hi.
  rewrite cells_from_lookup in Hi.
  destruct (job_images process_image deck_name card_db card_list !! i)
    as [img|] eqn:Himg; [|discriminate].
  injection Hi as <-.
  pose proof (lookup_lt_Some _ _ _ Himg) as Hlt.
  destruct (cell_at_fields (0 + Z.of_nat i) img) as (-> & -> & -> & _).
  unfold CARD_WIDTH_MM, CARD_HEIGHT_MM.
  destruct (Z.of_nat (length _) =? 0) eqn:E; zbool; [lia|].
  repeat apply conj; zlia.
Qed.

(** No two cells overlap: two distinct cells on the same page are apart
    horizontally or vertically (the 0.5 mm spacing separates them). *)
Theorem pdf_cells_disjoint
    (process_image : string -> string -> string -> option string)
    (deck_name : string) (card_db : Catalog) (card_list : list PrintEntry)
    (i j : nat) (c1 c2 : Cell) :
  let cs := cells (run_doc (create_pdf_from_cards process_image deck_name
                              card_db card_list)) in
  i <> j -> cs !! i = Some c1 -> cs !! j = Some c2 ->
  cell_page c1 = cell_page c2 ->
  cell_x c1 + CARD_WIDTH_MM < cell_x c2 \/
  cell_x c2 + CARD_WIDTH_MM < cell_x c1 \/
  cell_y c1 + CARD_HEIGHT_MM < cell_y c2 \/
  cell_y c2 + CARD_HEIGHT_MM < cell_y c1.
Proof.
  destruct (create_pdf_shape process_image deck_name card_db card_list)
    as (Hc & _ & _).
  cbn zeta in *. rewrite Hc, !cells_from_lookup.
  intros Hij H1 H2.
  destruct (_ !! i) as [im1|]; [|discriminate].
  destruct (_ !! j) as [im2|]; [|discriminate].
  injection H1 as <-. injection H2 as <-.
  destruct (cell_at_fields (0 + Z.of_nat i) im1) as (-> & -> & -> & _).
  destruct (cell_at_fields (0 + Z.of_nat j) im2) as (-> & -> & -> & _).
  unfold CARD_WIDTH_MM, CARD_HEIGHT_MM. intros Hpg.
  set (a := Z.of_nat i) in *. set (b := Z.of_nat j) in *.
  assert (Hab : a <> b) by (subst a b; lia).
  rewrite !Z.add_0_l in *.
  assert (Ea : a = 9 * (a / 9) + a mod 9) by zlia.
  assert (Eb : b = 9 * (b / 9) + b mod 9) by zlia.
  assert (Hm : a mod 9 <> b mod 9) by lia.
  assert (Ha3 : a mod 3 = (a mod 9) mod 3) by zlia.
  assert (Hb3 : b mod 3 = (b mod 9) mod 3) by zlia.
  rewrite Ha3, Hb3.
  assert (Ra : 0 <= a mod 9 < 9) by zlia.
  assert (Rb : 0 <= b mod 9 < 9) by zlia.
  revert Hm Ra Rb. clear. generalize (a mod 9) (b mod 9).
  intros x y Hxy [Hx1 Hx2] [Hy1 Hy2].
  assert (Hx : x = 0 \/ x = 1 \/ x = 2 \/ x = 3 \/ x = 4 \/ x = 5 \/
               x = 6 \/ x = 7 \/ x = 8) by lia.
  assert (Hy : y = 0 \/ y = 1 \/ y = 2 \/ y = 3 \/ y = 4 \/ y = 5 \/
               y = 6 \/ y = 7 \/ y = 8) by lia.
  destruct Hx as [->|[->|[->|[->|[->|[->|[->|[->| ->]]]]]]]];
  destruct Hy as [->|[->|[->|[->|[->|[->|[->|[->| ->]]]]]]]];
  zlia.
Qed.

(** There is no blank page: when at least one cell is drawn, every page
    of the document carries a cell. *)
Theorem pdf_no_blank_page
    (process_image : string -> string -> string -> option string)
    (deck_name : string) (card_db : Catalog) (card_list : list PrintEntry)
    (p : Z) :
  let r := create_pdf_from_cards process_image deck_name card_db card_list in
  cells (run_doc r) <> [] -> 0 <= p < pages (run_doc r) ->
  exists c, In c (cells (run_doc r)) /\ cell_page c = p.
Proof.
  destruct (create_pdf_shape process_image deck_name card_db card_list)
    as (Hc & (_ & _ & Hp & _) & _).
  cbn zeta in *. rewrite Hp, Hc. intros Hne Hpg.
  set (imgs := job_images process_image deck_name card_db card_list) in *.
  assert (Hn : (0 < length imgs)%nat).
  { destruct imgs; [done|simpl; lia]. }
  destruct (Z.of_nat (length imgs) =? 0) eqn:E; zbool; [lia|].
  assert (H9 : 9 * p <= Z.of_nat (length imgs) - 1).
  { assert (p <= (Z.of_nat (length imgs) - 1) / 9) by lia. zlia. }
  destruct (lookup_lt_is_Some_2 imgs (Z.to_nat (9 * p))) as [img Himg];
    [lia|].
  exists (cell_at (0 + Z.of_nat (Z.to_nat (9 * p))) img). split.
  - apply list_elem_of_In, list_elem_of_lookup.
    exists (Z.to_nat (9 * p)). rewrite cells_from_lookup, Himg. done.
  - destruct (cell_at_fields (0 + Z.of_nat (Z.to_nat (9 * p))) img)
      as (-> & _). zlia.
Qed.

(** When the function returns, the removal of the image file of every
    drawn cell is attempted after serialization. *)
Theorem pdf_drawn_images_removed
    (process_image : string -> string -> string -> option string)
    (deck_name : string) (card_db : Catalog) (card_list : list PrintEntry) :
  let r := create_pdf_from_cards process_image deck_name card_db card_list in
  run_exn r = None ->
  exists removals, run_events r = Serialized :: removals /\
  Forall (fun c => In (RemoveAttempted (cell_image c)) removals)
         (cells (run_doc r)).
Proof.
  destruct (create_pdf_shape process_image deck_name card_db card_list)
    as (Hc & _ & Ht).
  cbn zeta in *. intros Hok.
  assert (Hev : run_events (create_pdf_from_cards process_image deck_name
                              card_db card_list)
                = Serialized :: map RemoveAttempted
                    (temp_files_to_cleanup (run_doc (create_pdf_from_cards
                       process_image deck_name card_db card_list)))).
  { revert Hok. unfold create_pdf_from_cards.
    destruct (layout_cards _ _ _ _ _) as [[e|] st]; simpl; [discriminate|done]. }
  eexists. split; [exact Hev|].
  rewrite Ht, Hc. apply Forall_forall. intros c Hin.
  apply in_map_iff. exists (cell_image c). split; [done|].
  apply job_images_in_temps.
  rewrite <- (cells_from_images 0). apply in_map, list_elem_of_In. exact Hin.
Qed.

(** When the function returns, each card whose image step succeeded
    created exactly one temporary file, whatever its quantity-to-print
    (the image is tagged once), in job order; and the number of cells is
    the sum over those cards of their counts ([range(quantity)]: a
    negative count draws nothing, [true] one cell). *)
Theorem pdf_one_temp_file_per_card
    (process_image : string -> string -> string -> option string)
    (deck_name : string) (card_db : Catalog) (card_list : list PrintEntry) :
  let r := create_pdf_from_cards process_image deck_name card_db card_list in
  run_exn r = None ->
  temp_files_to_cleanup (run_doc r)
  = omap (image_step process_image deck_name card_db) card_list /\
  length (cells (run_doc r))
  = sum_list_with (cells_asked process_image deck_name card_db) card_list.
Proof.
  destruct (create_pdf_shape process_image deck_name card_db card_list)
    as (Hc & _ & Ht).
  cbn zeta in *. intros Hok.
  assert (Hl : fst (layout_cards process_image deck_name card_db card_list
                      initial_pdf) = None).
  { revert Hok. unfold create_pdf_from_cards.
    destruct (layout_cards _ _ _ _ _) as [[e|] st]; simpl; [discriminate|done]. }
  destruct (layout_ok_counts _ _ _ _ _ Hl) as [H1 H2].
  rewrite Ht, Hc, length_cells_from. done.
Qed.

(** Appending cards to a job that completes leaves the cells of the
    original job in place: the new cards' cells follow, placed from the
    running index where the original job stopped. *)
Theorem pdf_append_keeps_earlier_cells
    (process_image : string -> string -> string -> option string)
    (deck_name : string) (card_db : Catalog) (job more : list PrintEntry) :
  let r := create_pdf_from_cards process_image deck_name card_db job in
  run_exn r = None ->
  cells (run_doc (create_pdf_from_cards process_image deck_name card_db
                    (job ++ more)))
  = cells (run_doc r) ++
    cells_from (Z.of_nat (length (cells (run_doc r))))
               (job_images process_image deck_name card_db more).
Proof.
  destruct (create_pdf_shape process_image deck_name card_db job)
    as (Hc & Hcur & _).
  cbn zeta in *. intros Hok.
  rewrite Hc, length_cells_from.
  revert Hc Hcur Hok. unfold create_pdf_from_cards.
  rewrite layout_cards_app.
  destruct (layout_cards process_image deck_name card_db job initial_pdf)
    as [[e|] st]; simpl; [discriminate|].
  intros Hc Hcur _.
  destruct (layout_cards_at process_image deck_name card_db more _ st Hcur)
    as (_ & Hcl & _).
  cbn zeta in Hcl.
  destruct (layout_cards process_image deck_name card_db more st)
    as [[e|] st']; simpl in *; rewrite Hcl, Hc; done.
Qed.

(* ----------------------------------------------------------------- *)
(** ** Decklist resolver: deck ids and resolved entries *)

Lemma lstrip_suffix (l : list ascii) : exists p, l = p ++ lstrip l.
Proof.
  induction l as [|c l IH]; simpl; [by exists []|].
  destruct (is_py_space c); [|by exists []].
  destruct IH as [p Hp]. exists (c :: p). simpl. by rewrite <- Hp.
Qed.

Lemma lstrip_idem (l : list ascii) : lstrip (lstrip l) = lstrip l.
Proof.
  induction l as [|c l IH]; simpl; [done|].
  destruct (is_py_space c) eqn:E; [done|]. simpl. by rewrite E.
Qed.

Lemma lstrip_head (l : list ascii) (c : ascii) (t : list ascii) :
  lstrip l = c :: t -> is_py_space c = false.
Proof.
  intros H. pose proof (lstrip_idem l) as Hi. rewrite H in Hi. simpl in Hi.
  destruct (is_py_space c) eqn:E; [|done].
  rewrite <- H in Hi. (* lstrip t = c :: t *)
  assert (Hlen : (length (lstrip t) <= length t)%nat).
  { clear. induction t as [|d t IH]; simpl; [lia|]. destruct (is_py_space d); simpl; lia. }
  rewrite H in Hi. rewrite Hi in Hlen. simpl in Hlen. lia.
Qed.

Lemma strip_idem (s : string) : strip (strip s) = strip s.
Proof.
  unfold strip. rewrite list_ascii_of_string_of_list_ascii.
  set (a := lstrip (list_ascii_of_string s)).
  destruct (lstrip_suffix (rev a)) as [p Hp].
  set (b := lstrip (rev a)) in *.
  assert (Hb : lstrip (rev b) = rev b).
  { destruct (rev b) as [|c t] eqn:Erb; [done|].
    assert (Ha : a = c :: t ++ rev p).
    { rewrite <- (rev_involutive a), Hp, rev_app_distr, Erb. done. }
    assert (Hc : is_py_space c = false).
    { apply (lstrip_head (list_ascii_of_string s) c (t ++ rev p)). exact Ha. }
    simpl. by rewrite Hc. }
  rewrite Hb, rev_involutive. unfold b. by rewrite lstrip_idem.
Qed.

Lemma id_run_split (l : list ascii) :
  l = id_run l ++ after_run l /\ Forall (fun c => is_id_char c = true) (id_run l).
Proof.
  induction l as [|c l [IH1 IH2]]; simpl; [done|].
  destruct (is_id_char c) eqn:E; simpl; [|done].
  split; [by rewrite <- IH1|by constructor].
Qed.

Lemma re_search_found (l : list ascii) (g1 g2 : option (list ascii)) (r : list ascii) :
  re_search l = Some (g1, g2) ->
  (g1 = Some r \/ (g1 = None /\ g2 = Some r)) ->
  (exists pre post, l = pre ++ r ++ post) /\
  Forall (fun c => is_id_char c = true) r.
Proof.
  induction l as [|c l IH]; [discriminate|].
  cbn [re_search]. destruct (match_view (c :: l)) as [r1|] eqn:Hv.
  - intros [= <- <-] [[= <-]|[? _]]; [|discriminate].
    unfold match_view in Hv.
    destruct (after_view (c :: l)) as [t|] eqn:Ha; [|discriminate].
    destruct (id_run_split t) as [Ht Hf].
    destruct (id_run t) as [|x y] eqn:Hr; [discriminate|]. injection Hv as <-.
    split; [|done].
    destruct l as [|c1 [|c2 [|c3 [|c4 l]]]]; try discriminate.
    cbn in Ha. destruct (_ && _); [|discriminate]. injection Ha as <-.
    exists [c; c1; c2; c3; c4], (after_run l). rewrite Ht at 1. done.
  - destruct (match_tail (c :: l)) as [r2|] eqn:Ht.
    + intros [= <- <-] [[=]|[_ [= <-]]].
      unfold match_tail in Ht. destruct (id_run_split (c :: l)) as [Hs Hf].
      destruct (id_run (c :: l)) as [|x y]; [discriminate|].
      destruct (at_end _); [|discriminate]. injection Ht as <-.
      split; [|done]. exists [], (after_run (c :: l)). done.
    + intros Hs Hg. destruct (IH Hs Hg) as [(pre & post & ->) Hf].
      split; [|done]. by exists (c :: pre), post.
Qed.

(** An extracted deck id is a non-empty run of the characters
    [[a-z0-9]] that occurs, as is, in the URL. *)
Theorem deck_id_is_url_piece (url deck_id : string) :
  extract_deck_id url = Some deck_id ->
  deck_id <> ""%string /\
  Forall (fun c => is_id_char c = true) (list_ascii_of_string deck_id) /\
  exists pre post,
    list_ascii_of_string url = pre ++ list_ascii_of_string deck_id ++ post.
Proof.
  intros Hid. split; [exact (extract_deck_id_nonempty _ _ Hid)|].
  revert Hid. unfold extract_deck_id.
  destruct (re_search (list_ascii_of_string url)) as [[g1 g2]|] eqn:E;
    [|discriminate].
  destruct g1 as [r|].
  - intros [= <-]. rewrite list_ascii_of_string_of_list_ascii.
    destruct (re_search_found _ _ _ r E (or_introl eq_refl)) as [? ?]. done.
  - destruct g2 as [r|]; [|discriminate]. intros [= <-].
    rewrite list_ascii_of_string_of_list_ascii.
    destruct (re_search_found _ _ _ r E (or_intror (conj eq_refl eq_refl))) as [? ?].
    done.
Qed.

Lemma normalize_entries_ok (l : list json) (d : list DeckEntry) :
  normalize_entries l = Ok d -> Forall deck_entry_ok d.
Proof.
  revert d; induction l as [|entry l IH]; intros d; simpl; [by intros [= <-]|].
  destruct (dict_get entry "card" JNull) as [ci|]; [|discriminate]; simpl.
  destruct (dict_get entry "quantity" (JInt 0)) as [q|]; [|discriminate]; simpl.
  destruct (py_truthy ci) eqn:Ht; simpl.
  - destruct (py_gt0 q) as [[|]|] eqn:Hq; simpl; try discriminate.
    + destruct (dict_get ci "name" (JStr "")) as [nv|]; [|discriminate]; simpl.
      destruct (py_strip nv) as [nm|] eqn:Hs; [|discriminate]; simpl.
      destruct (normalize_entries l) as [t|]; [|discriminate]; simpl.
      intros [= <-]. apply Forall_app. split; [|by apply IH].
      destruct (String.eqb nm "") eqn:En; [constructor|].
      constructor; [|constructor]. repeat split; simpl.
      * by apply String.eqb_neq in En.
      * destruct nv; try discriminate. injection Hs as <-. apply strip_idem.
      * done.
    + destruct (normalize_entries l) as [t|]; [|discriminate]; simpl.
      intros [= <-]. by apply IH.
  - destruct (normalize_entries l) as [t|]; [|discriminate]; simpl.
    intros [= <-]. by apply IH.
Qed.

Lemma parse_decklist_ok (raw : json) (d : list DeckEntry) :
  parse_decklist raw = Ok d -> d = [] \/ exists l, normalize_entries l = Ok d.
Proof. unfold parse_decklist, py_bind. intros H. repeat case_match; simplify_eq; eauto. Qed.

Lemma parse_decklist_raise (raw : json) (e : exn) :
  parse_decklist raw = Raise e -> e = AttributeError \/ getitem0 raw = Raise e.
Proof. unfold parse_decklist, py_bind. intros H. repeat case_match; simplify_eq; eauto. Qed.

(** Whatever the server answers, every entry the resolver returns has a
    non-empty name with no surrounding whitespace (stripping it again
    changes nothing) and a quantity that compares [> 0] as true. *)
Theorem resolver_output_wellformed (fetch : string -> fetch_result)
    (url : string) (d : list DeckEntry) :
  resolve_decklist_from_url fetch url = Ok d ->
  Forall deck_entry_ok d.
Proof.
  unfold resolve_decklist_from_url.
  destruct (extract_deck_id url) as [id|]; [|intros [= <-]; constructor].
  destruct (String.eqb id ""); [intros [= <-]; constructor|].
  destruct (fetch id) as [|raw]; [intros [= <-]; constructor|].
  intros H. destruct (parse_decklist_ok _ _ H) as [->|[l Hl]]; [constructor|].
  exact (normalize_entries_ok _ _ Hl).
Qed.

(** The resolver raises only an [AttributeError] (an entry, or a truthy
    card, that is not a dict, or a card name that is not a string), or
    the exception of [raw_response[0]] on a fetched response with no
    first element, which the handler re-evaluates. *)
Theorem resolver_raise_sources (fetch : string -> fetch_result)
    (url : string) (e : exn) :
  resolve_decklist_from_url fetch url = Raise e ->
  e = AttributeError \/
  exists deck_id raw, extract_deck_id url = Some deck_id /\
    fetch deck_id = FetchJson raw /\ getitem0 raw = Raise e.
Proof.
  unfold resolve_decklist_from_url.
  destruct (extract_deck_id url) as [id|]; [|discriminate].
  destruct (String.eqb id ""); [discriminate|].
  destruct (fetch id) as [|raw] eqn:Hf; [discriminate|].
  intros H. destruct (parse_decklist_raise _ _ H) as [->|H0]; [by left|].
  right. eauto.
Qed.

(** Conversely, a fetched response whose [raw_response[0]] raises (an
    empty list or string, a dict, a number, a boolean, [null]) makes the
    resolver raise that same exception instead of returning [[]]. *)
Theorem resolver_raises_without_first_element (fetch : string -> fetch_result)
    (url deck_id : string) (raw : json) (e : exn) :
  extract_deck_id url = Some deck_id ->
  fetch deck_id = FetchJson raw ->
  getitem0 raw = Raise e ->
  resolve_decklist_from_url fetch url = Raise e.
Proof.
  intros Hid Hf H0. unfold resolve_decklist_from_url. rewrite Hid.
  rewrite (proj2 (String.eqb_neq _ _) (extract_deck_id_nonempty _ _ Hid)).
  rewrite Hf. unfold parse_decklist. rewrite H0. simpl.
  destruct e; simpl; rewrite ?H0; try done.
Qed.


(* ----------------------------------------------------------------- *)
(** ** Collection import *)

Lemma parse_rows_app (fieldnames : CsvRecord) (a b : list CsvRecord) :
  parse_rows fieldnames (a ++ b)
  = (x <- parse_rows fieldnames a ;; y <- parse_rows fieldnames b ;; Ok (x ++ y)).
Proof.
  induction a as [|row a IH]; simpl.
  - by destruct (parse_rows fieldnames b).
  - destruct row as [|f fs]; [exact IH|].
    destruct (parse_row fieldnames (f :: fs)) as [r|e]; simpl; [|done].
    rewrite IH. destruct (parse_rows fieldnames a) as [x|e]; simpl; [|done].
    destruct (parse_rows fieldnames b) as [y|e]; simpl; [|done].
    by destruct r.
Qed.

Lemma parse_row_ok (fieldnames row : CsvRecord) (o : OwnedRecord) :
  parse_row fieldnames row = Ok (Some o) -> owned_ok o.
Proof.
  unfold parse_row.
  destruct (row_get fieldnames row "card name") as [[s|]|]; simpl; try discriminate;
  destruct (row_get fieldnames row "quantity") as [[q|]|]; simpl; try discriminate;
  try destruct (py_int q) as [z|]; try discriminate;
  match goal with |- (if ?b then _ else _) = _ -> _ => destruct b eqn:Hb end;
  try discriminate; intros [= <-]; apply andb_prop in Hb as [Hn Hq];
  apply negb_true_iff, String.eqb_neq in Hn; apply Z.ltb_lt in Hq;
  repeat split; simpl; auto using strip_idem.
Qed.

Lemma parse_rows_ok (fieldnames : CsvRecord) (rows : list CsvRecord)
    (owned : list OwnedRecord) :
  parse_rows fieldnames rows = Ok owned -> Forall owned_ok owned.
Proof.
  revert owned; induction rows as [|row rows IH]; intros owned; simpl.
  - intros [= <-]. constructor.
  - destruct row as [|f fs]; [apply IH|].
    destruct (parse_row fieldnames (f :: fs)) as [r|e] eqn:Hr; simpl; [|discriminate].
    destruct (parse_rows fieldnames rows) as [t|e]; simpl; [|discriminate].
    intros [= <-]. destruct r as [o|]; [|by apply IH].
    constructor; [exact (parse_row_ok _ _ _ Hr)|by apply IH].
Qed.

(** Every record of an imported collection has a non-empty name with no
    surrounding whitespace and a quantity [> 0]. *)
Theorem import_records_wellformed (records : list CsvRecord)
    (owned : list OwnedRecord) :
  parse_curiosa_export records = Ok owned -> Forall owned_ok owned.
Proof.
  destruct records as [|fieldnames rows]; simpl; [intros [= <-]; constructor|].
  apply parse_rows_ok.
Qed.

Lemma row_get_absent (fieldnames row : CsvRecord) (k : string) :
  ~ In k fieldnames -> row_get fieldnames row k = None.
Proof.
  intros Hk. unfold row_get.
  assert (Hd : existsb (String.eqb k) (drop (length row) fieldnames) = false).
  { apply not_true_iff_false. intros Hx. apply existsb_exists in Hx as (x & Hx & Hkx).
    apply String.eqb_eq in Hkx. subst x. apply Hk.
    rewrite <- (take_drop (length row) fieldnames). apply in_or_app. by right. }
  rewrite Hd, andb_false_r. simpl.
  assert (Hz : zip_lookup fieldnames row k = None).
  { clear Hd. revert row; induction fieldnames as [|h hs IH]; intros row; [done|].
    destruct row as [|v vs]; [done|]. simpl.
    rewrite IH by (intros Hin; apply Hk; by right).
    destruct (String.eqb h k) eqn:E; [|done].
    apply String.eqb_eq in E. subst. destruct Hk. by left. }
  by rewrite Hz.
Qed.

(** A file whose header lacks the column [card name] or the column
    [quantity] imports no record (when the import returns). *)
Theorem import_needs_both_columns (fieldnames : CsvRecord) (rows : list CsvRecord)
    (owned : list OwnedRecord) :
  (~ In "card name"%string fieldnames \/ ~ In "quantity"%string fieldnames) ->
  parse_curiosa_export (fieldnames :: rows) = Ok owned -> owned = [].
Proof.
  intros Hcol. simpl. revert owned; induction rows as [|row rows IH]; intros owned; simpl.
  - by intros [= <-].
  - destruct row as [|f fs]; [apply IH|].
    destruct (parse_row fieldnames (f :: fs)) as [r|e] eqn:Hr; simpl; [|discriminate].
    destruct (parse_rows fieldnames rows) as [t|e]; simpl; [|discriminate].
    intros [= <-]. specialize (IH t eq_refl). subst t.
    destruct r as [o|]; [|done]. exfalso. revert Hr. unfold parse_row.
    destruct Hcol as [Hc|Hc]; rewrite (row_get_absent _ _ _ Hc); simpl;
      unfold py_bind; intros H; repeat (case_match; simplify_eq/=).
  by rewrite andb_false_r in H1.
Qed.






(** A full-length row whose quantity field is not accepted by [int()] is
    skipped: the import gives the same result as without that row. *)
Theorem import_skips_bad_quantity (fieldnames : CsvRecord)
    (pre post : list CsvRecord) (row : CsvRecord) (s : string) :
  (length fieldnames <= length row)%nat ->
  zip_lookup fieldnames row "quantity" = Some s ->
  py_int s = None ->
  parse_curiosa_export (fieldnames :: pre ++ row :: post)
  = parse_curiosa_export (fieldnames :: pre ++ post).
Proof.
  intros Hlen Hq Hs. simpl. rewrite !parse_rows_app.
  assert (Hget : forall k, row_get fieldnames row k
                           = option_map Some (zip_lookup fieldnames row k)).
  { intros k. unfold row_get. apply Nat.ltb_ge in Hlen. by rewrite Hlen. }
  assert (Hr : parse_row fieldnames row = Ok None).
  { unfold parse_row. rewrite !Hget, Hq. simpl.
    destruct (zip_lookup fieldnames row "card name"); simpl; by rewrite Hs. }
  destruct row as [|f fs].
  - destruct fieldnames; [done|]. discriminate.
  - cbn [parse_rows]. rewrite Hr. simpl.
    destruct (parse_rows fieldnames pre); simpl; [|done].
    by destruct (parse_rows fieldnames post).
Qed.


(* ----------------------------------------------------------------- *)
(** ** Collection import: integer fields *)

Lemma digit_char_ok (d : Z) :
  0 <= d < 10 -> is_digit (digit_char d) = true /\ digit_val (digit_char d) = d
  /\ Ascii.eqb (digit_char d) "_" = false /\ is_c_space (digit_char d) = false
  /\ Ascii.eqb (digit_char d) "+" = false /\ Ascii.eqb (digit_char d) "-" = false.
Proof.
  intros Hd.
  assert (E : d = 0 \/ d = 1 \/ d = 2 \/ d = 3 \/ d = 4 \/ d = 5 \/ d = 6 \/
              d = 7 \/ d = 8 \/ d = 9) by lia.
  destruct E as [->|[->|[->|[->|[->|[->|[->|[->|[->| ->]]]]]]]]]; vm_compute;
    repeat split; reflexivity.
Qed.

Lemma digits_rev_spec (fuel : nat) (z : Z) :
  0 <= z -> (Z.to_nat z < fuel)%nat ->
  digits_rev fuel z <> [] /\
  Forall (fun c => is_digit c = true /\ Ascii.eqb c "_" = false /\
                   is_c_space c = false /\ Ascii.eqb c "+" = false /\
                   Ascii.eqb c "-" = false) (digits_rev fuel z) /\
  digits_value (rev (digits_rev fuel z)) = z.
Proof.
  revert z; induction fuel as [|f IH]; intros z Hz Hf; [lia|].
  cbn [digits_rev]. destruct (z <? 10) eqn:E; zbool.
  - destruct (digit_char_ok z) as (H1 & H2 & H3 & H4 & H5 & H6); [lia|].
    split; [done|]. split; [constructor; [tauto|constructor]|].
    unfold digits_value; cbn [rev app fold_left]. rewrite H1, H2. lia.
  - destruct (digit_char_ok (z mod 10)) as (H1 & H2 & H3 & H4 & H5 & H6); [zlia|].
    destruct (IH (z / 10)) as (_ & Hf2 & Hv); [zlia| |].
    { assert (z / 10 < z) by zlia. lia. }
    split; [done|]. split; [constructor; [done|exact Hf2]|].
    cbn [rev]. unfold digits_value in *. rewrite fold_left_app, Hv.
    cbn [fold_left]. rewrite H1, H2. zlia.
Qed.

Lemma digits_rev_length (fuel n : nat) (z : Z) :
  0 <= z -> z < 10 ^ Z.of_nat (S n) -> (length (digits_rev fuel z) <= S n)%nat.
Proof.
  revert z n; induction fuel as [|f IH]; intros z n Hz Hlt; simpl; [lia|].
  destruct (z <? 10) eqn:E; zbool; simpl; [lia|].
  destruct n as [|n].
  - simpl in Hlt. lia.
  - enough (length (digits_rev f (z / 10)) <= S n)%nat by lia.
    apply IH; [zlia|].
    rewrite Nat2Z.inj_succ, Z.pow_succ_r in Hlt by lia. zlia.
Qed.

Lemma c_lstrip_spaces (ws l : list ascii) :
  Forall (fun c => is_c_space c = true) ws -> c_lstrip (ws ++ l) = c_lstrip l.
Proof. induction 1 as [|c ws Hc _ IH]; simpl; [done|]. by rewrite Hc. Qed.

Lemma num_run_digits (ds ws : list ascii) :
  Forall (fun c => is_digit c = true) ds ->
  Forall (fun c => is_c_space c = true) ws ->
  num_run (ds ++ ws) = ds /\ num_rest (ds ++ ws) = ws.
Proof.
  intros Hd Hw. induction Hd as [|c ds Hc _ IH]; simpl.
  - destruct Hw as [|c ws Hc _]; [done|]. simpl.
    assert (E : is_digit c = false /\ Ascii.eqb c "_" = false).
    { revert Hc. unfold is_c_space, is_digit.
      destruct c as [[] [] [] [] [] [] [] []]; vm_compute; done. }
    destruct E as [-> ->]. done.
  - rewrite Hc. simpl. destruct IH as [-> ->]. done.
Qed.

Lemma underscores_ok_digits (ds : list ascii) :
  Forall (fun c => Ascii.eqb c "_" = false) ds -> underscores_ok ds = true.
Proof. induction 1 as [|c ds Hc _ IH]; simpl; [done|]. by rewrite Hc. Qed.

(** [int()] reads back the decimal digits of any [0 <= z < 10^4300],
    surrounded by whitespace and optionally preceded by a sign. *)
Theorem py_int_decimal_roundtrip (z : Z) (ws1 ws2 : list ascii) :
  0 <= z < 10 ^ 4300 ->
  Forall (fun c => is_c_space c = true) ws1 ->
  Forall (fun c => is_c_space c = true) ws2 ->
  py_int (string_of_list_ascii (ws1 ++ decimal z ++ ws2)) = Some z /\
  py_int (string_of_list_ascii (ws1 ++ "+"%char :: decimal z ++ ws2)) = Some z /\
  py_int (string_of_list_ascii (ws1 ++ "-"%char :: decimal z ++ ws2)) = Some (- z).
Proof.
  intros [Hz Hzb] Hw1 Hw2.
  assert (Hlen : (length (decimal z) <= 4300)%nat).
  { unfold decimal. rewrite length_rev. apply digits_rev_length; [exact Hz|].
    replace (Z.of_nat (S 4299)) with 4300 by reflexivity. exact Hzb. }
  clear Hzb.
  destruct (digits_rev_spec (S (Z.to_nat z)) z) as (Hne & Hall & Hv);
    [exact Hz|apply Nat.lt_succ_diag_r|].
  unfold decimal in *. set (ds := digits_rev (S (Z.to_nat z)) z) in *.
  apply Forall_rev in Hall.
  destruct (rev ds) as [|c t] eqn:Er.
  { destruct ds; [done|]. simpl in Er. destruct (rev ds); discriminate. }
  apply Forall_cons in Hall as [(Hc1 & Hc2 & Hc3 & Hc4 & Hc5) Ht].
  assert (Hdig : Forall (fun c => is_digit c = true) (c :: t)).
  { constructor; [done|]. eapply Forall_impl; [exact Ht|]. intros x Hx; apply Hx. }
  assert (Hus : underscores_ok (c :: t) = true).
  { apply underscores_ok_digits. constructor; [done|].
    eapply Forall_impl; [exact Ht|]. intros x Hx; apply Hx. }
  assert (Hcnt : digit_count (c :: t) = length (c :: t)).
  { clear -Hdig. unfold digit_count. induction Hdig as [|x l Hx _ IH]; [done|].
    rewrite filter_cons_True by (by rewrite Hx). simpl. by rewrite IH. }
  destruct (num_run_digits (c :: t) ws2 Hdig Hw2) as [Hr1 Hr2].
  assert (Hws : forallb is_c_space ws2 = true).
  { apply forallb_forall. intros x Hx. rewrite List.Forall_forall in Hw2. by apply Hw2. }
  unfold py_int. rewrite !list_ascii_of_string_of_list_ascii, !(c_lstrip_spaces ws1) by exact Hw1.
  change ((c :: t) ++ ws2) with (c :: (t ++ ws2)) in *.
  set (u := t ++ ws2) in *. clearbody u.
  cbn [c_lstrip]. rewrite Hc3.
  replace (is_c_space "+") with false by reflexivity.
  replace (is_c_space "-") with false by reflexivity.
  replace (Ascii.eqb "+" "+") with true by reflexivity.
  replace (Ascii.eqb "-" "+") with false by reflexivity.
  replace (Ascii.eqb "-" "-") with true by reflexivity.
  cbn beta iota zeta. rewrite Hc4, Hc5. cbn beta iota zeta.
  rewrite Hr1, Hr2, Hc1, Hus, Hws, Hcnt, (proj2 (Nat.leb_le _ _) Hlen).
  cbn beta iota zeta. rewrite Hv. repeat split; f_equal; lia.
Qed.


(* ----------------------------------------------------------------- *)
(** ** Enrichment of an imported collection *)

Lemma owned_fold_lookup_last (l : list OwnedRecord) (m : gmap string Z)
    (name : string) :
  fold_left (fun m card => <[o_name card := o_quantity card]> m) l m !! name
  = match last (List.filter (fun r => String.eqb (o_name r) name) l) with
    | Some r => Some (o_quantity r)
    | None => m !! name
    end.
Proof.
  revert m; induction l as [|r l IH]; intros m; simpl; [done|].
  rewrite IH. destruct (String.eqb (o_name r) name) eqn:E.
  - apply String.eqb_eq in E. subst name. rewrite last_cons.
    destruct (last _); [done|]. by rewrite lookup_insert_eq.
  - apply String.eqb_neq in E.
    destruct (last _); [done|]. by rewrite lookup_insert_ne.
Qed.

(** The owned quantity of a name is the quantity of the last collection
    record with that name, and there is none when no record has it. *)
Theorem owned_quantity_last_record (owned_collection : list OwnedRecord)
    (name : string) :
  owned_quantities owned_collection !! name
  = o_quantity <$> last (List.filter (fun r => String.eqb (o_name r) name)
                           owned_collection).
Proof.
  unfold owned_quantities. rewrite owned_fold_lookup_last.
  by destruct (last _).
Qed.

Lemma last_filter_name (l : list OwnedRecord) (name : string) :
  match last (List.filter (fun r => String.eqb (o_name r) name) l) with
  | Some r => In r l /\ o_name r = name
  | None => ~ In name (map o_name l)
  end.
Proof.
  induction l as [|r l IH]; simpl; [auto|].
  destruct (String.eqb (o_name r) name) eqn:E.
  - apply String.eqb_eq in E. rewrite last_cons.
    destruct (last _) as [x|]; [|by split; [left|]].
    destruct IH as [IH1 IH2]. split; [by right|done].
  - apply String.eqb_neq in E.
    destruct (last _) as [x|]; [destruct IH as [IH1 IH2]; split; [by right|done]|].
    intros [H|H]; [done|auto].
Qed.

(** For a collection produced by the import, a deck card's owned
    quantity is positive when its name is in the collection and 0
    otherwise; a catalogued card with a positive requirement is then
    [Missing] exactly when its name is absent from the collection. *)
Theorem imported_collection_status (records : list CsvRecord)
    (owned : list OwnedRecord) (decklist : list DeckRequirement)
    (card_db : Catalog) (i : nat) (deck_card : DeckRequirement)
    (e : EnrichedCard) :
  parse_curiosa_export records = Ok owned ->
  decklist !! i = Some deck_card ->
  enrich_and_match_data decklist owned card_db !! i = Some e ->
  (In (dr_name deck_card) (map o_name owned) -> 0 < ec_owned_quantity e) /\
  (~ In (dr_name deck_card) (map o_name owned) -> ec_owned_quantity e = 0) /\
  (is_Some (card_db !! dr_name deck_card) -> 0 < dr_quantity deck_card ->
   (ec_status e = Missing <-> ~ In (dr_name deck_card) (map o_name owned))).
Proof.
  intros Hp Hd He. rewrite (enrich_lookup _ _ _ _ _ Hd) in He.
  injection He as <-. unfold enrich_card. cbn [ec_owned_quantity ec_status].
  unfold owned_quantities. rewrite owned_fold_lookup_last.
  pose proof (last_filter_name owned (dr_name deck_card)) as Hl.
  assert (Hok : Forall owned_ok owned).
  { destruct records; [injection Hp as <-; constructor|].
    exact (parse_rows_ok _ _ _ Hp). }
  destruct (last _) as [r|]; simpl.
  - destruct Hl as [Hin Hname].
    rewrite List.Forall_forall in Hok. destruct (Hok r Hin) as (_ & _ & Hq).
    assert (Hn : In (dr_name deck_card) (map o_name owned)).
    { rewrite <- Hname. by apply in_map. }
    split; [done|]. split; [done|]. intros [m ->] Hreq.
    split; [|done].
    destruct (dr_quantity deck_card - o_quantity r <=? 0); [discriminate|].
    rewrite (proj2 (Z.ltb_lt _ _) Hq). discriminate.
  - rewrite lookup_empty. simpl.
    split; [done|]. split; [done|]. intros [m ->] Hreq.
    split; [done|]. intros _.
    rewrite (proj2 (Z.leb_gt _ _)) by lia. done.
Qed.


(* ----------------------------------------------------------------- *)
(** ** Print endpoint *)

Lemma print_entry_json_roundtrip (pe : PrintEntry) :
  print_entry_of_json (print_entry_to_json pe) = Ok (Some pe).
Proof. by destruct pe. Qed.

Lemma layout_json_cards_map
    (process_image : string -> string -> string -> option string)
    (deck_name : string) (card_db : Catalog) (cl : list PrintEntry)
    (st : PdfState) :
  layout_json_cards process_image deck_name card_db
    (map print_entry_to_json cl) st
  = layout_cards process_image deck_name card_db cl st.
Proof.
  revert st; induction cl as [|pe cl IH]; intros st; [done|].
  cbn [map layout_json_cards]. rewrite print_entry_json_roundtrip.
  change (pe :: cl) with ([pe] ++ cl). rewrite layout_cards_app.
  destruct (layout_cards process_image deck_name card_db [pe] st)
    as [[e|] st']; [done|apply IH].
Qed.

Lemma create_pdf_from_json_list
    (process_image : string -> string -> string -> option string)
    (deck_name : string) (card_db : Catalog) (cl : list PrintEntry) :
  create_pdf_from_json process_image deck_name card_db
    (JList (map print_entry_to_json cl))
  = create_pdf_from_cards process_image deck_name card_db cl.
Proof.
  unfold create_pdf_from_json, create_pdf_from_cards. simpl.
  by rewrite layout_json_cards_map.
Qed.

(** The error statuses of the print endpoint: 503 when the catalog is
    empty, 500 when the body is not JSON or not a JSON object, 400 when
    [cards] is absent or falsy. *)
Theorem bucket_error_statuses
    (process_image : string -> string -> string -> option string)
    (py_str : json -> string) (card_db : Catalog) :
  (forall body, size card_db = 0%nat ->
     print_bucket_endpoint process_image py_str card_db body = BucketError 503) /\
  (size card_db <> 0%nat ->
     print_bucket_endpoint process_image py_str card_db None = BucketError 500) /\
  (forall data, size card_db <> 0%nat -> (forall kvs, data <> JObj kvs) ->
     print_bucket_endpoint process_image py_str card_db (Some data)
     = BucketError 500) /\
  (forall kvs, size card_db <> 0%nat ->
     py_truthy (default (JList []) (obj_lookup "cards" kvs)) = false ->
     print_bucket_endpoint process_image py_str card_db (Some (JObj kvs))
     = BucketError 400).
Proof.
  unfold print_bucket_endpoint. repeat apply conj.
  - intros body ->. done.
  - intros Hs. apply Nat.eqb_neq in Hs. by rewrite Hs.
  - intros data Hs Hd. apply Nat.eqb_neq in Hs. rewrite Hs.
    destruct data as [| | | | |kvs]; try done. by destruct (Hd kvs).
  - intros kvs Hs Hc. apply Nat.eqb_neq in Hs. rewrite Hs. simpl.
    by rewrite Hc.
Qed.

(** For a non-empty list of well-formed card entries, the endpoint
    serves [create_pdf_from_cards] on that list, named after [deck_name]
    (default "Proxy Deck"), or answers 500 when that call raises. *)
Theorem bucket_serves_card_list
    (process_image : string -> string -> string -> option string)
    (py_str : json -> string) (card_db : Catalog)
    (kvs : list (string * json)) (cl : list PrintEntry) :
  size card_db <> 0%nat ->
  obj_lookup "cards" kvs = Some (JList (map print_entry_to_json cl)) ->
  cl <> [] ->
  let deck_name := default (JStr "Proxy Deck") (obj_lookup "deck_name" kvs) in
  let r := create_pdf_from_cards process_image (py_str deck_name) card_db cl in
  print_bucket_endpoint process_image py_str card_db (Some (JObj kvs))
  = match run_exn r with
    | Some _ => BucketError 500
    | None => BucketPdf (py_str deck_name ++ "_Proxy_Sheet.pdf") r
    end.
Proof.
  intros Hs Hc Hne. cbn zeta. unfold print_bucket_endpoint.
  apply Nat.eqb_neq in Hs. rewrite Hs. simpl. rewrite Hc. simpl.
  destruct cl as [|pe cl]; [done|]. simpl.
  rewrite <- create_pdf_from_json_list. done.
Qed.

Lemma layout_json_cards_app
    (process_image : string -> string -> string -> option string)
    (deck_name : string) (card_db : Catalog) (pre : list PrintEntry)
    (rest : list json) (st : PdfState) :
  layout_json_cards process_image deck_name card_db
    (map print_entry_to_json pre ++ rest) st
  = match layout_cards process_image deck_name card_db pre st with
    | (Some e, st') => (Some e, st')
    | (None, st') => layout_json_cards process_image deck_name card_db rest st'
    end.
Proof.
  revert st; induction pre as [|pe pre IH]; intros st; [done|].
  cbn [map app layout_json_cards]. rewrite print_entry_json_roundtrip.
  change (pe :: pre) with ([pe] ++ pre). rewrite layout_cards_app.
  destruct (layout_cards process_image deck_name card_db [pe] st)
    as [[e|] st']; [done|apply IH].
Qed.

(** A card entry that is not a dict with [name] and [quantity], or whose
    name is a list or a dict, makes the endpoint answer 500, whatever
    well-formed entries precede it. *)
Theorem bucket_rejects_bad_entry
    (process_image : string -> string -> string -> option string)
    (py_str : json -> string) (card_db : Catalog)
    (kvs : list (string * json)) (pre : list PrintEntry) (bad : json)
    (rest : list json) (e : exn) :
  size card_db <> 0%nat ->
  obj_lookup "cards" kvs
  = Some (JList (map print_entry_to_json pre ++ bad :: rest)) ->
  print_entry_of_json bad = Raise e ->
  print_bucket_endpoint process_image py_str card_db (Some (JObj kvs))
  = BucketError 500.
Proof.
  intros Hs Hc Hb. unfold print_bucket_endpoint.
  apply Nat.eqb_neq in Hs. rewrite Hs. cbn [dict_get]. rewrite Hc. cbn [default id].
  assert (Ht : py_truthy (JList (map print_entry_to_json pre ++ bad :: rest)) = true)
    by (by destruct pre).
  rewrite Ht. cbn [negb].
  unfold create_pdf_from_json. cbn [py_iter]. rewrite layout_json_cards_app.
  destruct (obj_lookup "deck_name" kvs) as [dn|]; cbn [default];
  (destruct (layout_cards _ _ _ pre initial_pdf) as [[e'|] st']; simpl;
   [done|rewrite Hb; done]).
Qed.

(** A truthy [cards] value that is not a list (a string, a dict, a
    number, [true]) makes the endpoint answer 500. *)
Theorem bucket_rejects_non_list
    (process_image : string -> string -> string -> option string)
    (py_str : json -> string) (card_db : Catalog)
    (kvs : list (string * json)) (cards : json) :
  size card_db <> 0%nat ->
  obj_lookup "cards" kvs = Some cards ->
  py_truthy cards = true -> (forall l, cards <> JList l) ->
  print_bucket_endpoint process_image py_str card_db (Some (JObj kvs))
  = BucketError 500.
Proof.
  intros Hs Hc Ht Hl. unfold print_bucket_endpoint.
  apply Nat.eqb_neq in Hs. rewrite Hs. simpl. rewrite Hc. simpl. rewrite Ht. simpl.
  destruct (obj_lookup "deck_name" kvs) as [dn|]; simpl;
  unfold create_pdf_from_json;
  destruct cards as [|b|z|s|l|ps]; simpl in *; try done;
  try (by destruct (Hl l));
  first [destruct s as [|c s]; [simpl in Ht; discriminate|reflexivity]
        |destruct ps as [|[k v] ps]; [simpl in Ht; discriminate|reflexivity]].
Qed.

Lemma layout_cards_unknown
    (process_image : string -> string -> string -> option string)
    (deck_name : string) (card_db : Catalog) (cl : list PrintEntry)
    (st : PdfState) :
  Forall (fun pe => card_db !! pe_name pe = None) cl ->
  layout_cards process_image deck_name card_db cl st = (None, st).
Proof.
  intros Hall. revert st. induction Hall as [|pe cl Hpe _ IH]; intros st; [done|].
  simpl. unfold card_image_url. rewrite Hpe. apply IH.
Qed.

(** A request whose cards are all unknown to the catalog is served a
    one-page PDF with no image and no temporary file. *)
Theorem bucket_unknown_cards_blank_pdf
    (process_image : string -> string -> string -> option string)
    (py_str : json -> string) (card_db : Catalog)
    (kvs : list (string * json)) (cl : list PrintEntry) :
  size card_db <> 0%nat ->
  obj_lookup "cards" kvs = Some (JList (map print_entry_to_json cl)) ->
  cl <> [] ->
  Forall (fun pe => card_db !! pe_name pe = None) cl ->
  let deck_name := default (JStr "Proxy Deck") (obj_lookup "deck_name" kvs) in
  print_bucket_endpoint process_image py_str card_db (Some (JObj kvs))
  = BucketPdf (py_str deck_name ++ "_Proxy_Sheet.pdf")
      (mkRun None initial_pdf [Serialized]).
Proof.
  intros Hs Hc Hne Hall. unfold print_bucket_endpoint.
  apply Nat.eqb_neq in Hs. rewrite Hs. cbn [dict_get]. rewrite Hc. cbn [default id].
  assert (Ht : py_truthy (JList (map print_entry_to_json cl)) = true)
    by (by destruct cl).
  rewrite Ht. cbn [negb]. rewrite create_pdf_from_json_list.
  unfold create_pdf_from_cards. rewrite layout_cards_unknown by exact Hall.
  reflexivity.
Qed.

(* ----------------------------------------------------------------- *)
(** ** The upload endpoint *)

(** [generate_proxies_endpoint] answers 503 while the catalog is empty;
    otherwise 400 for an upload that is not UTF-8, for a missing upload,
    for an upload that imports no record, and for a blank deck link, and
    an import that raises leaves the view uncaught. *)
Theorem gen_proxies_statuses fetch card_db file deck_link :
  ((size card_db = 0)%nat -> generate_proxies_endpoint fetch card_db file deck_link = GenError 503) /\
  ((size card_db <> 0)%nat ->
     (file = UploadUndecodable -> generate_proxies_endpoint fetch card_db file deck_link = GenError 400) /\
     (file = NoUpload -> generate_proxies_endpoint fetch card_db file deck_link = GenError 400) /\
     (forall records, file = UploadRecords records -> parse_curiosa_export records = Ok [] ->
        generate_proxies_endpoint fetch card_db file deck_link = GenError 400) /\
     (forall records owned, file = UploadRecords records -> parse_curiosa_export records = Ok owned ->
        owned <> [] -> strip (default "" deck_link) = "" ->
        generate_proxies_endpoint fetch card_db file deck_link = GenError 400) /\
     (forall records e, file = UploadRecords records -> parse_curiosa_export records = Raise e ->
        generate_proxies_endpoint fetch card_db file deck_link = GenUncaught e)).
Proof.
  unfold generate_proxies_endpoint. split.
  - intros H. rewrite H. reflexivity.
  - intros H. apply Nat.eqb_neq in H. rewrite H.
    repeat split; intros; subst; try reflexivity.
    + rewrite H1. reflexivity.
    + rewrite H1. destruct owned as [|o os]; [congruence|].
      rewrite H3. reflexivity.
    + rewrite H1. reflexivity.
Qed.

(** The endpoint answers 200 exactly when the catalog is loaded, an
    uploaded file imports a non-empty collection, and the stripped deck
    link resolves to a non-empty decklist; the response carries those
    two lists. *)
Theorem gen_proxies_ok fetch card_db file deck_link dl owned :
  generate_proxies_endpoint fetch card_db file deck_link = GenOk dl owned <->
  (size card_db <> 0)%nat /\
  (exists records, file = UploadRecords records /\ parse_curiosa_export records = Ok owned) /\
  owned <> [] /\
  strip (default "" deck_link) <> "" /\
  resolve_decklist_from_url fetch (strip (default "" deck_link)) = Ok dl /\
  dl <> [].
Proof.
  unfold generate_proxies_endpoint. split.
  - destruct (size card_db =? 0)%nat eqn:Hs; [discriminate|].
    apply Nat.eqb_neq in Hs.
    destruct file as [| |records]; [discriminate|discriminate|].
    destruct (parse_curiosa_export records) as [o|e] eqn:Hp; [|discriminate].
    destruct o as [|o0 os]; [discriminate|].
    destruct (String.eqb (strip (default "" deck_link)) "") eqn:Hu; [discriminate|].
    apply String.eqb_neq in Hu.
    destruct (resolve_decklist_from_url fetch (strip (default "" deck_link))) as [d|e] eqn:Hr;
      [|discriminate].
    destruct d as [|d0 ds]; [discriminate|].
    intros Heq. injection Heq as <- <-.
    repeat split; eauto; discriminate.
  - intros (Hs & (records & -> & Hp) & Ho & Hu & Hr & Hd).
    apply Nat.eqb_neq in Hs. rewrite Hs, Hp.
    destruct owned as [|o0 os]; [congruence|].
    apply String.eqb_neq in Hu. rewrite Hu, Hr.
    destruct dl; [congruence|]. reflexivity.
Qed.

(** When the upload imports no record, or the stripped deck link is
    blank, the response does not depend on the HTTP exchange: the deck
    is never fetched. *)
Theorem gen_proxies_fetch_unused fetch1 fetch2 card_db file deck_link :
  (forall records owned, file = UploadRecords records ->
     parse_curiosa_export records = Ok owned -> owned = []) \/
  strip (default "" deck_link) = "" ->
  generate_proxies_endpoint fetch1 card_db file deck_link =
  generate_proxies_endpoint fetch2 card_db file deck_link.
Proof.
  intros H. unfold generate_proxies_endpoint.
  destruct (size card_db =? 0)%nat; [reflexivity|].
  destruct file as [| |records]; try reflexivity.
  destruct (parse_curiosa_export records) as [o|e] eqn:Hp; [|reflexivity].
  destruct o as [|o0 os]; [reflexivity|].
  destruct H as [H|H].
  - specialize (H records (o0 :: os) eq_refl Hp). discriminate.
  - rewrite H. reflexivity.
Qed.

(* ----------------------------------------------------------------- *)
(** ** Further instances at concrete inputs *)

(** The first two cells of a card printed twice lie side by side. *)
Lemma pdf_cells_disjoint_witness :
  cell_x (mkCell 0 "/tmp/a.png" 20 20) + CARD_WIDTH_MM
  < cell_x (mkCell 0 "/tmp/a.png" 147 20) \/
  cell_x (mkCell 0 "/tmp/a.png" 147 20) + CARD_WIDTH_MM
  < cell_x (mkCell 0 "/tmp/a.png" 20 20) \/
  cell_y (mkCell 0 "/tmp/a.png" 20 20) + CARD_HEIGHT_MM
  < cell_y (mkCell 0 "/tmp/a.png" 147 20) \/
  cell_y (mkCell 0 "/tmp/a.png" 147 20) + CARD_HEIGHT_MM
  < cell_y (mkCell 0 "/tmp/a.png" 20 20).
Proof.
  refine (pdf_cells_disjoint (fun _ _ _ => Some "/tmp/a.png"%string) "Deck"
            {[ "A" := mkCatalogEntry (Some "https://img/a.png") None None
                        None None ]}
            [mkPrint "A" (JInt 2)] 0 1 _ _ _ _ _ _).
  - lia.
  - vm_compute. reflexivity.
  - vm_compute. reflexivity.
  - reflexivity.
Defined.

(** Ten copies of a card fill two pages; the second one carries a cell. *)
Lemma pdf_no_blank_page_witness :
  exists c,
    In c (cells (run_doc (create_pdf_from_cards
      (fun _ _ _ => Some "/tmp/a.png"%string) "Deck"
      {[ "A" := mkCatalogEntry (Some "https://img/a.png") None None
                  None None ]}
      [mkPrint "A" (JInt 10)]))) /\ cell_page c = 1.
Proof.
  refine (pdf_no_blank_page (fun _ _ _ => Some "/tmp/a.png"%string) "Deck"
            {[ "A" := mkCatalogEntry (Some "https://img/a.png") None None
                        None None ]}
            [mkPrint "A" (JInt 10)] 1 _ _).
  - vm_compute. discriminate.
  - split; [lia|]. vm_compute. reflexivity.
Defined.

(** A job of two cards, each printed once. *)
Lemma pdf_drawn_images_removed_witness :
  let r := create_pdf_from_cards
             (fun name _ _ => Some ("/tmp/" ++ name ++ ".png")%string) "Deck"
             {[ "A" := mkCatalogEntry (Some "https://img/a.png") None None
                         None None;
                "B" := mkCatalogEntry (Some "https://img/b.png") None None
                         None None ]}
             [mkPrint "A" (JInt 1); mkPrint "B" (JInt 1)] in
  exists removals, run_events r = Serialized :: removals /\
  Forall (fun c => In (RemoveAttempted (cell_image c)) removals)
         (cells (run_doc r)).
Proof.
  intros r. apply pdf_drawn_images_removed. vm_compute. reflexivity.
Defined.

(** A card printed three times creates one temporary file. *)
Lemma pdf_one_temp_file_per_card_witness :
  let pi := fun (name : string) (_ _ : string) =>
              Some ("/tmp/" ++ name ++ ".png")%string in
  let db : Catalog :=
    {[ "A" := mkCatalogEntry (Some "https://img/a.png") None None None None ]} in
  let cl := [mkPrint "A" (JInt 3); mkPrint "Z" (JInt 2)] in
  let r := create_pdf_from_cards pi "Deck" db cl in
  temp_files_to_cleanup (run_doc r) = omap (image_step pi "Deck" db) cl /\
  length (cells (run_doc r)) = sum_list_with (cells_asked pi "Deck" db) cl.
Proof.
  intros pi db cl r. apply pdf_one_temp_file_per_card.
  vm_compute. reflexivity.
Defined.

(** Appending a card to a job of two cells. *)
Lemma pdf_append_keeps_earlier_cells_witness :
  let pi := fun (name : string) (_ _ : string) =>
              Some ("/tmp/" ++ name ++ ".png")%string in
  let db : Catalog :=
    {[ "A" := mkCatalogEntry (Some "https://img/a.png") None None None None;
       "B" := mkCatalogEntry (Some "https://img/b.png") None None None None ]} in
  let r := create_pdf_from_cards pi "Deck" db [mkPrint "A" (JInt 2)] in
  cells (run_doc (create_pdf_from_cards pi "Deck" db
                    ([mkPrint "A" (JInt 2)] ++ [mkPrint "B" (JInt 1)])))
  = cells (run_doc r) ++
    cells_from (Z.of_nat (length (cells (run_doc r))))
               (job_images pi "Deck" db [mkPrint "B" (JInt 1)]).
Proof.
  intros pi db r. apply pdf_append_keeps_earlier_cells.
  vm_compute. reflexivity.
Defined.

(** The id of the sample deck URL. *)
Lemma deck_id_is_url_piece_witness :
  let url := "https://curiosa.io/decks/view/cmiwp5nmv6idr05eb8a09qm0d"%string in
  let deck_id := "cmiwp5nmv6idr05eb8a09qm0d"%string in
  deck_id <> ""%string /\
  Forall (fun c => is_id_char c = true) (list_ascii_of_string deck_id) /\
  exists pre post,
    list_ascii_of_string url = pre ++ list_ascii_of_string deck_id ++ post.
Proof.
  intros url deck_id. apply deck_id_is_url_piece.
  vm_compute. reflexivity.
Defined.

(** A batch with a padded name and a [true] quantity. *)
Lemma resolver_output_wellformed_witness :
  Forall deck_entry_ok [mkDeckEntry "Mesmerism" (JBool true)].
Proof.
  apply (resolver_output_wellformed
           (fun _ => FetchJson (envelope (JList
              [JObj [("quantity", JBool true);
                     ("card", JObj [("name", JStr " Mesmerism ")])]])))
           "https://curiosa.io/decks/view/cmiwp5nmv6idr05eb8a09qm0d").
  vm_compute. reflexivity.
Defined.

(** An empty batch. *)
Lemma resolver_raise_sources_witness :
  let fetch := fun _ : string => FetchJson (JList []) in
  let url := "https://curiosa.io/decks/view/cmiwp5nmv6idr05eb8a09qm0d"%string in
  IndexError = AttributeError \/
  exists deck_id raw, extract_deck_id url = Some deck_id /\
    fetch deck_id = FetchJson raw /\ getitem0 raw = Raise IndexError.
Proof.
  intros fetch url. apply resolver_raise_sources.
  vm_compute. reflexivity.
Defined.

(** A response that is a number. *)
Lemma resolver_raises_without_first_element_witness :
  resolve_decklist_from_url (fun _ => FetchJson (JInt 7))
    "https://curiosa.io/decks/view/cmiwp5nmv6idr05eb8a09qm0d"
  = Raise TypeError.
Proof.
  apply (resolver_raises_without_first_element _ _
           "cmiwp5nmv6idr05eb8a09qm0d" (JInt 7)).
  - vm_compute. reflexivity.
  - reflexivity.
  - reflexivity.
Defined.

(** A file with a padded name, a zero quantity and a signed one. *)
Lemma import_records_wellformed_witness :
  Forall owned_ok [mkOwned "Mesmerism" 2 (Some "Alpha") None].
Proof.
  apply (import_records_wellformed
           [["card name"; "quantity"; "set"]%string;
            [" Mesmerism "; "+2"; "Alpha"]%string;
            ["Bolt"; "0"; "Beta"]%string]).
  vm_compute. reflexivity.
Defined.

(** A header naming the card column [name]. *)
Lemma import_needs_both_columns_witness :
  exists owned,
    parse_curiosa_export [["name"; "quantity"]%string; ["Mesmerism"; "2"]%string]
    = Ok owned /\ owned = [].
Proof.
  exists []. split; [vm_compute; reflexivity|].
  apply (import_needs_both_columns ["name"; "quantity"]%string
           [["Mesmerism"; "2"]%string]).
  - left. intros [H|[H|[]]]; discriminate H.
  - vm_compute. reflexivity.
Defined.


(** A row whose quantity is spelled out. *)
Lemma import_skips_bad_quantity_witness :
  parse_curiosa_export
    [["card name"; "quantity"]%string; ["Mesmerism"; "two"]%string;
     ["Bolt"; "1"]%string]
  = parse_curiosa_export
      [["card name"; "quantity"]%string; ["Bolt"; "1"]%string].
Proof.
  apply (import_skips_bad_quantity ["card name"; "quantity"]%string []
           [["Bolt"; "1"]%string] ["Mesmerism"; "two"]%string "two").
  - simpl. lia.
  - reflexivity.
  - vm_compute. reflexivity.
Defined.

(** The number 42 with a leading space and a trailing newline. *)
Lemma py_int_decimal_roundtrip_witness :
  py_int (string_of_list_ascii ([" "%char] ++ decimal 42 ++ ["010"%char]))
  = Some 42 /\
  py_int (string_of_list_ascii ([" "%char] ++ "+"%char :: decimal 42
                                 ++ ["010"%char])) = Some 42 /\
  py_int (string_of_list_ascii ([" "%char] ++ "-"%char :: decimal 42
                                 ++ ["010"%char])) = Some (- 42).
Proof.
  apply py_int_decimal_roundtrip.
  - split; [lia|]. vm_compute. reflexivity.
  - repeat constructor.
  - repeat constructor.
Defined.

(** A deck asking for a card the imported collection lacks. *)
Lemma imported_collection_status_witness :
  let records := [["card name"; "quantity"]%string; ["A"; "3"]%string] in
  let owned := [mkOwned "A" 3 None None] in
  let db : Catalog :=
    {[ "A" := mkCatalogEntry None None None None None;
       "B" := mkCatalogEntry None None None None None ]} in
  let e := enrich_card (owned_quantities owned) db (mkReq "B" 2) in
  (In "B"%string (map o_name owned) -> 0 < ec_owned_quantity e) /\
  (~ In "B"%string (map o_name owned) -> ec_owned_quantity e = 0) /\
  (is_Some (db !! "B"%string) -> 0 < 2 ->
   (ec_status e = Missing <-> ~ In "B"%string (map o_name owned))).
Proof.
  intros records owned db e.
  apply (imported_collection_status records owned
           [mkReq "A" 1; mkReq "B" 2] db 1 (mkReq "B" 2) e).
  - vm_compute. reflexivity.
  - reflexivity.
  - vm_compute. reflexivity.
Defined.

(** A body without [cards]. *)
Lemma bucket_error_statuses_witness :
  print_bucket_endpoint (fun _ _ _ => None) (fun _ => "Deck"%string)
    {[ "A" := mkCatalogEntry None None None None None ]}
    (Some (JObj [("deck_name", JStr "Deck")]))
  = BucketError 400.
Proof.
  destruct (bucket_error_statuses (fun _ _ _ => None) (fun _ => "Deck"%string)
              {[ "A" := mkCatalogEntry None None None None None ]})
    as (_ & _ & _ & H).
  apply H.
  - vm_compute. discriminate.
  - reflexivity.
Defined.

(** A list of one card printed once. *)
Lemma bucket_serves_card_list_witness :
  let pi := fun (_ _ _ : string) => Some "/tmp/a.png"%string in
  let db : Catalog :=
    {[ "A" := mkCatalogEntry (Some "https://img/a.png") None None None None ]} in
  let r := create_pdf_from_cards pi "Deck" db [mkPrint "A" (JInt 1)] in
  print_bucket_endpoint pi (fun _ => "Deck"%string) db
    (Some (JObj [("cards", JList [print_entry_to_json (mkPrint "A" (JInt 1))])]))
  = match run_exn r with
    | Some _ => BucketError 500
    | None => BucketPdf ("Deck" ++ "_Proxy_Sheet.pdf") r
    end.
Proof.
  intros pi db r.
  apply (bucket_serves_card_list pi (fun _ => "Deck"%string) db
           [("cards", JList [print_entry_to_json (mkPrint "A" (JInt 1))])]
           [mkPrint "A" (JInt 1)]).
  - vm_compute. discriminate.
  - reflexivity.
  - discriminate.
Defined.

(** A card entry sent as a bare string after a good one. *)
Lemma bucket_rejects_bad_entry_witness :
  print_bucket_endpoint (fun _ _ _ => Some "/tmp/a.png"%string)
    (fun _ => "Deck"%string)
    {[ "A" := mkCatalogEntry (Some "https://img/a.png") None None None None ]}
    (Some (JObj [("cards", JList (map print_entry_to_json
                                     [mkPrint "A" (JInt 1)] ++ [JStr "B"]))]))
  = BucketError 500.
Proof.
  apply (bucket_rejects_bad_entry _ _ _ _ [mkPrint "A" (JInt 1)] (JStr "B") []
           TypeError).
  - vm_compute. discriminate.
  - reflexivity.
  - reflexivity.
Defined.

(** [cards] sent as a dict. *)
Lemma bucket_rejects_non_list_witness :
  print_bucket_endpoint (fun _ _ _ => None) (fun _ => "Deck"%string)
    {[ "A" := mkCatalogEntry None None None None None ]}
    (Some (JObj [("cards", JObj [("A", JInt 1)])]))
  = BucketError 500.
Proof.
  apply (bucket_rejects_non_list _ _ _ _ (JObj [("A", JInt 1)])).
  - vm_compute. discriminate.
  - reflexivity.
  - reflexivity.
  - discriminate.
Defined.

(** A request for a card the catalog does not have. *)
Lemma bucket_unknown_cards_blank_pdf_witness :
  print_bucket_endpoint (fun _ _ _ => Some "/tmp/a.png"%string)
    (fun _ => "Deck"%string)
    {[ "A" := mkCatalogEntry (Some "https://img/a.png") None None None None ]}
    (Some (JObj [("cards", JList [print_entry_to_json (mkPrint "Z" (JInt 3))])]))
  = BucketPdf ("Deck" ++ "_Proxy_Sheet.pdf") (mkRun None initial_pdf [Serialized]).
Proof.
  apply (bucket_unknown_cards_blank_pdf (fun _ _ _ => Some "/tmp/a.png"%string)
           (fun _ => "Deck"%string)
           {[ "A" := mkCatalogEntry (Some "https://img/a.png") None None None None ]}
           [("cards", JList [print_entry_to_json (mkPrint "Z" (JInt 3))])]
           [mkPrint "Z" (JInt 3)]).
  - vm_compute. discriminate.
  - reflexivity.
  - discriminate.
  - repeat constructor.
Defined.

(** An upload with a row holding only a card name. *)
Lemma gen_proxies_statuses_witness :
  generate_proxies_endpoint (fun _ => FetchJson (JList []))
    {[ "Mesmerism" := mkCatalogEntry None None None None None ]}
    (UploadRecords [["card name"; "quantity"]%string; ["Mesmerism"; "1"]%string;
                    ["Bolt"]%string])
    (Some "https://curiosa.io/decks/view/cmiwp5nmv6idr05eb8a09qm0d")
  = GenUncaught TypeError.
Proof.
  refine (proj2 (proj2 (proj2 (proj2 (proj2
            (gen_proxies_statuses (fun _ => FetchJson (JList []))
               {[ "Mesmerism" := mkCatalogEntry None None None None None ]}
               (UploadRecords [["card name"; "quantity"]%string;
                               ["Mesmerism"; "1"]%string; ["Bolt"]%string])
               (Some "https://curiosa.io/decks/view/cmiwp5nmv6idr05eb8a09qm0d"))
            _)))) _ _ eq_refl _).
  - vm_compute. discriminate.
  - vm_compute. reflexivity.
Defined.

(** A padded deck link to a one-card deck. *)
Lemma gen_proxies_ok_witness :
  generate_proxies_endpoint
    (fun _ => FetchJson (envelope (JList
       [JObj [("quantity", JBool true);
              ("card", JObj [("name", JStr " Mesmerism ")])]])))
    {[ "Mesmerism" := mkCatalogEntry None None None None None ]}
    (UploadRecords [["card name"; "quantity"]%string; ["Mesmerism"; "2"]%string])
    (Some " https://curiosa.io/decks/view/cmiwp5nmv6idr05eb8a09qm0d ")
  = GenOk [mkDeckEntry "Mesmerism" (JBool true)] [mkOwned "Mesmerism" 2 None None].
Proof.
  apply (proj2 (gen_proxies_ok _ _ _ _ _ _)).
  repeat split; try (eexists; split); vm_compute;
    solve [reflexivity | discriminate | intros H; discriminate H].
Defined.

(** A header naming the card column [name]. *)
Lemma gen_proxies_fetch_unused_witness :
  generate_proxies_endpoint (fun _ => FetchJson (JInt 7))
    {[ "Mesmerism" := mkCatalogEntry None None None None None ]}
    (UploadRecords [["name"; "quantity"]%string; ["Mesmerism"; "2"]%string])
    (Some "https://curiosa.io/decks/view/cmiwp5nmv6idr05eb8a09qm0d")
  = generate_proxies_endpoint (fun _ => FetchFailed)
    {[ "Mesmerism" := mkCatalogEntry None None None None None ]}
    (UploadRecords [["name"; "quantity"]%string; ["Mesmerism"; "2"]%string])
    (Some "https://curiosa.io/decks/view/cmiwp5nmv6idr05eb8a09qm0d").
Proof.
  apply gen_proxies_fetch_unused. left.
  intros records owned Hf Hp. injection Hf as Hr. subst records.
  vm_compute in Hp. congruence.
Defined.
